(** * Human-in-the-loop approval gate (day-2b)

    A shallow embedding of

    - [place_shipping_order]
      (day-2/day-2b/examples/2_long_running_operations.py), the tool that
      auto-approves small orders and pauses large ones for a human decision;
    - [check_for_approval] (day-2/day-2b/utils/workflow_helpers.py), the
      scan of the runner's events for the pause signal;

    and the properties the design document states about them; then of the
    code around them, [print_agent_response], [create_approval_response]
    and [extract_image_from_events] of the same helper module and
    [load_api_key] and [run_shipping_workflow] of the example, with
    properties read off the code.

    Modelling conventions.
    - A Python [int] is a [Z]; [str(n)] inside an f-string is [str_int].
      The interpreter's cap on the number of digits of an int-to-str
      conversion is modelled by [format_int]:
      [place_shipping_order_limited] is the gate under that cap, and is
      [place_shipping_order] for every quantity within it.
    - A Python [str] is a [string] holding its UTF-8 bytes.
    - A [dict] with string keys is a [gmap string PyVal]: Python compares
      dicts without regard to insertion order, as [gmap] equality does.
    - The tool runs in the monad [Tool]: it reads and updates the
      [ToolContext] it was handed and either returns or raises. *)

From Stdlib Require Import ZArith String DecimalString Lia.
From Stdlib Require Import Ascii DecimalPos DecimalZ.
From stdpp Require Import base option gmap strings list fin_maps.

Local Open Scope Z_scope.
Local Open Scope string_scope.

(** ** Python values *)

(** The values that occur in the dictionaries of the two functions. *)
Inductive PyVal : Type :=
  | VNone
  | VInt (z : Z)
  | VStr (s : string).

#[export] Instance PyVal_eq_dec : EqDecision PyVal.
Proof. solve_decision. Defined.

(** [str(n)] for an [int]: decimal digits, a leading minus sign for a
    negative number, ["0"] for zero. *)
Definition str_int (n : Z) : string := NilZero.string_of_int (Z.to_int n).

(** An [Optional[str]] attribute as a dictionary value. *)
Definition of_opt_str (o : option string) : PyVal :=
  match o with
  | Some s => VStr s
  | None => VNone
  end.

(** Truth value of an [Optional[object]]: [None] is false, an object of a
    class without [__bool__] and [__len__] is true. *)
Definition truthy {A : Type} (o : option A) : bool :=
  match o with
  | Some _ => true
  | None => false
  end.

(** Truth value of an [Optional[list]]: [None] and [[]] are false. *)
Definition truthy_list {A : Type} (o : option (list A)) : bool :=
  match o with
  | Some (_ :: _) => true
  | _ => false
  end.

(** The exceptions the modelled statements can raise. *)
Inductive PyExc : Type :=
  | AttributeError (obj attr : string)
  | ValueError (msg : string).

(** ** The tool context *)

(** Modelled from the spec: the confirmation object the runtime supplies on
    a resumed call; the code reads its boolean [confirmed] field only. *)
Record ToolConfirmation : Type := mkToolConfirmation {
  confirmed : bool
}.

(** Modelled from the spec: what the tool hands to [request_confirmation],
    a hint for the human and a payload. *)
Record ConfirmationRequest : Type := mkConfirmationRequest {
  hint : string;
  payload : gmap string PyVal
}.

(** Modelled from the spec: the runtime's context object.
    [tool_confirmation] is [None] on a first call and the human's answer on
    a resumed one; [requested] is the runtime's record of the confirmation
    requests made through this context, oldest first. *)
Record ToolContext : Type := mkToolContext {
  tool_confirmation : option ToolConfirmation;
  requested : list ConfirmationRequest
}.

(** Outcome of running a statement: a value or a raised exception. *)
Inductive Res (A : Type) : Type :=
  | Return (a : A)
  | Raise (e : PyExc).
Arguments Return {A} a.
Arguments Raise {A} e.

(** A computation over the tool context. The context is threaded through
    also when an exception is raised, as mutations made before a raise
    persist in Python. *)
Definition Tool (A : Type) : Type := ToolContext -> Res A * ToolContext.

#[export] Instance Tool_ret : MRet Tool :=
  fun A (a : A) ctx => (Return a, ctx).

#[export] Instance Tool_bind : MBind Tool :=
  fun A B (k : A -> Tool B) (m : Tool A) ctx =>
    match m ctx with
    | (Return a, ctx') => k a ctx'
    | (Raise e, ctx') => (Raise e, ctx')
    end.

Definition raise {A : Type} (e : PyExc) : Tool A :=
  fun ctx => (Raise e, ctx).

(** [tool_context.tool_confirmation] *)
Definition get_tool_confirmation : Tool (option ToolConfirmation) :=
  fun ctx => (Return (tool_confirmation ctx), ctx).

(** [x.confirmed] for [x : Optional[ToolConfirmation]]: attribute access on
    [None] raises. *)
Definition get_confirmed (x : option ToolConfirmation) : Tool bool :=
  match x with
  | Some tc => mret (confirmed tc)
  | None => raise (AttributeError "NoneType" "confirmed")
  end.

(** Modelled from the spec: [request_confirmation(hint, payload) -> void]
    of the runtime. It records the request and returns [None]; the resume
    state is the runtime's to fill in on the next call, not here. *)
Definition request_confirmation
    (hint : string) (payload : gmap string PyVal) : Tool unit :=
  fun ctx =>
    (Return tt,
     {| tool_confirmation := tool_confirmation ctx;
        requested := requested ctx ++ [mkConfirmationRequest hint payload] |}).

(** ** The approval gate *)

Definition LARGE_ORDER_THRESHOLD : Z := 5.

Definition place_shipping_order
    (num_containers : Z) (destination : string) : Tool (gmap string PyVal) :=
  (* SCENARIO 1: small orders auto-approve *)
  if (num_containers <=? LARGE_ORDER_THRESHOLD)%Z then
    mret {[ "status" := VStr "approved";
            "order_id" := VStr ("ORD-" +:+ str_int num_containers +:+ "-AUTO");
            "num_containers" := VInt num_containers;
            "destination" := VStr destination;
            "message" := VStr ("Order auto-approved: " +:+ str_int num_containers
                               +:+ " containers to " +:+ destination) ]}
  else
    (* SCENARIO 2: large order, first call: pause here *)
    c ← get_tool_confirmation;
    if negb (truthy c) then
      request_confirmation
        ("⚠️ Large order: " +:+ str_int num_containers
           +:+ " containers to " +:+ destination +:+ ". Approve?")
        {[ "num_containers" := VInt num_containers;
           "destination" := VStr destination ]};;
      mret {[ "status" := VStr "pending";
              "message" := VStr ("Order for " +:+ str_int num_containers
                                 +:+ " containers requires approval") ]}
    else
      (* SCENARIO 3: large order, resumed call: continue here *)
      c ← get_tool_confirmation;
      ok ← get_confirmed c;
      if ok : bool then
        mret {[ "status" := VStr "approved";
                "order_id" := VStr ("ORD-" +:+ str_int num_containers +:+ "-HUMAN");
                "num_containers" := VInt num_containers;
                "destination" := VStr destination;
                "message" := VStr ("Order approved: " +:+ str_int num_containers
                                   +:+ " containers to " +:+ destination) ]}
      else
        mret {[ "status" := VStr "rejected";
                "message" := VStr ("Order rejected: " +:+ str_int num_containers
                                   +:+ " containers to " +:+ destination) ]}.

(** ** The gate under the interpreter's digit limit *)

(** [sys.get_int_max_str_digits()]: the interpreter refuses to convert an
    [int] of more decimal digits to [str]; 4300 by default, 0 for no
    limit. *)
Definition DEFAULT_MAX_STR_DIGITS : Z := 4300.

(** [n] has more than [max_str_digits] decimal digits, that is
    [10 ^ max_str_digits <= |n|], and the limit is in force. *)
Definition exceeds_max_str_digits (max_str_digits n : Z) : bool :=
  (0 <? max_str_digits)%Z && (10 ^ max_str_digits <=? Z.abs n)%Z.

(** [{n}] inside an f-string, for an [int]: [str_int n], or [ValueError]
    beyond the digit limit. *)
Definition format_int (max_str_digits n : Z) : Tool string :=
  if exceeds_max_str_digits max_str_digits n then
    raise (ValueError
             ("Exceeds the limit (" +:+ str_int max_str_digits
              +:+ ") for integer string conversion; "
              +:+ "use sys.set_int_max_str_digits() to increase the limit"))
  else mret (str_int n).

(** [place_shipping_order] again, with every conversion of
    [num_containers] inside an f-string subject to the digit limit, in the
    order in which the statements evaluate their f-strings. *)
Definition place_shipping_order_limited
    (max_str_digits num_containers : Z) (destination : string)
    : Tool (gmap string PyVal) :=
  (* SCENARIO 1: small orders auto-approve *)
  if (num_containers <=? LARGE_ORDER_THRESHOLD)%Z then
    n1 ← format_int max_str_digits num_containers;
    n2 ← format_int max_str_digits num_containers;
    mret {[ "status" := VStr "approved";
            "order_id" := VStr ("ORD-" +:+ n1 +:+ "-AUTO");
            "num_containers" := VInt num_containers;
            "destination" := VStr destination;
            "message" := VStr ("Order auto-approved: " +:+ n2
                               +:+ " containers to " +:+ destination) ]}
  else
    (* SCENARIO 2: large order, first call: pause here *)
    c ← get_tool_confirmation;
    if negb (truthy c) then
      n1 ← format_int max_str_digits num_containers;
      request_confirmation
        ("⚠️ Large order: " +:+ n1
           +:+ " containers to " +:+ destination +:+ ". Approve?")
        {[ "num_containers" := VInt num_containers;
           "destination" := VStr destination ]};;
      n2 ← format_int max_str_digits num_containers;
      mret {[ "status" := VStr "pending";
              "message" := VStr ("Order for " +:+ n2
                                 +:+ " containers requires approval") ]}
    else
      (* SCENARIO 3: large order, resumed call: continue here *)
      c ← get_tool_confirmation;
      ok ← get_confirmed c;
      if ok : bool then
        n1 ← format_int max_str_digits num_containers;
        n2 ← format_int max_str_digits num_containers;
        mret {[ "status" := VStr "approved";
                "order_id" := VStr ("ORD-" +:+ n1 +:+ "-HUMAN");
                "num_containers" := VInt num_containers;
                "destination" := VStr destination;
                "message" := VStr ("Order approved: " +:+ n2
                                   +:+ " containers to " +:+ destination) ]}
      else
        n1 ← format_int max_str_digits num_containers;
        mret {[ "status" := VStr "rejected";
                "message" := VStr ("Order rejected: " +:+ n1
                                   +:+ " containers to " +:+ destination) ]}.

(** ** Scanning the runner's events for the pause signal *)

(** The framework's event types are declared outside the repository; the
    records below hold the attributes [check_for_approval] reads, each
    [Optional] attribute as an [option]. *)
Module Genai.

Record FunctionCall : Type := mkFunctionCall {
  id : option string;
  name : option string
}.

Record Part : Type := mkPart {
  text : option string;
  function_call : option FunctionCall
}.

Record Content : Type := mkContent {
  parts : option (list Part)
}.

Record Event : Type := mkEvent {
  invocation_id : string;
  content : option Content
}.

End Genai.

(** [part.function_call and
     part.function_call.name == "adk_request_confirmation"] *)
Definition is_confirmation_call (part : Genai.Part) : bool :=
  match Genai.function_call part with
  | Some fc =>
      match Genai.name fc with
      | Some n => String.eqb n "adk_request_confirmation"
      | None => false
      end
  | None => false
  end.

(** [event.content and event.content.parts] *)
Definition has_parts (event : Genai.Event) : bool :=
  match Genai.content event with
  | Some c => truthy_list (Genai.parts c)
  | None => false
  end.

(** The inner [for part in event.content.parts] loop; [Some d] when the
    loop body executes [return d], [None] when the loop runs to its end. *)
Fixpoint scan_parts (event : Genai.Event) (ps : list Genai.Part)
    : option (gmap string PyVal) :=
  match ps with
  | [] => None
  | part :: ps' =>
      if is_confirmation_call part then
        Some {[ "approval_id" :=
                  of_opt_str (Genai.function_call part ≫= Genai.id);
                "invocation_id" := VStr (Genai.invocation_id event) ]}
      else scan_parts event ps'
  end.

(** [check_for_approval(events)]: the returned dictionary, or [None]. *)
Fixpoint check_for_approval (events : list Genai.Event)
    : option (gmap string PyVal) :=
  match events with
  | [] => None
  | event :: events' =>
      let found :=
        if has_parts event then
          match Genai.content event with
          | Some c => scan_parts event (default [] (Genai.parts c))
          | None => None
          end
        else None in
      match found with
      | Some d => Some d
      | None => check_for_approval events'
      end
  end.

(** ** Vocabulary of the specification *)

(** The four results of the design document, as the dictionaries the tool
    builds. *)
Definition auto_approved (q : Z) (d : string) : gmap string PyVal :=
  {[ "status" := VStr "approved";
     "order_id" := VStr ("ORD-" +:+ str_int q +:+ "-AUTO");
     "num_containers" := VInt q;
     "destination" := VStr d;
     "message" := VStr ("Order auto-approved: " +:+ str_int q
                        +:+ " containers to " +:+ d) ]}.

Definition pending_approval (q : Z) : gmap string PyVal :=
  {[ "status" := VStr "pending";
     "message" := VStr ("Order for " +:+ str_int q
                        +:+ " containers requires approval") ]}.

Definition approved (q : Z) (d : string) : gmap string PyVal :=
  {[ "status" := VStr "approved";
     "order_id" := VStr ("ORD-" +:+ str_int q +:+ "-HUMAN");
     "num_containers" := VInt q;
     "destination" := VStr d;
     "message" := VStr ("Order approved: " +:+ str_int q
                        +:+ " containers to " +:+ d) ]}.

Definition rejected (q : Z) (d : string) : gmap string PyVal :=
  {[ "status" := VStr "rejected";
     "message" := VStr ("Order rejected: " +:+ str_int q
                        +:+ " containers to " +:+ d) ]}.

(** The confirmation request of the pausing path. *)
Definition confirmation_request (q : Z) (d : string) : ConfirmationRequest :=
  {| hint := "⚠️ Large order: " +:+ str_int q
             +:+ " containers to " +:+ d +:+ ". Approve?";
     payload := {[ "num_containers" := VInt q; "destination" := VStr d ]} |}.

(** The outcome as the threshold comparison and the confirmed flag
    determine it. *)
Definition decision (q : Z) (d : string) (resume : option ToolConfirmation)
    : gmap string PyVal :=
  if (q <=? 5)%Z then auto_approved q d
  else
    match resume with
    | None => pending_approval q
    | Some tc => if confirmed tc then approved q d else rejected q d
    end.

(** [sub in s] on strings. *)
Definition str_contains (s sub : string) : Prop :=
  exists pre post : string, s = pre +:+ sub +:+ post.

(** The three values of the [status] field. *)
Definition is_status (v : PyVal) : Prop :=
  v = VStr "approved" \/ v = VStr "pending" \/ v = VStr "rejected".

(** The shape every result dictionary has. *)
Definition well_formed (r : gmap string PyVal) : Prop :=
  (exists s, r !! "status" = Some s /\ is_status s) /\
  (exists m, r !! "message" = Some (VStr m)) /\
  (is_Some (r !! "order_id") <-> r !! "status" = Some (VStr "approved")).

(** What the design document promises of a resumed call, for a request and
    the human's answer: approved with a [-HUMAN] identifier when confirmed,
    rejected without identifier otherwise. *)
Definition resume_outcome
    (q : Z) (d : string) (tc : ToolConfirmation) (r : gmap string PyVal)
    : Prop :=
  if confirmed tc then
    r !! "status" = Some (VStr "approved") /\
    r !! "order_id" = Some (VStr ("ORD-" +:+ str_int q +:+ "-HUMAN"))
  else
    r !! "status" = Some (VStr "rejected") /\
    r !! "order_id" = None.

(** The parts of an event, none when it has no content or no part list. *)
Definition event_parts (event : Genai.Event) : list Genai.Part :=
  match Genai.content event with
  | Some c => default [] (Genai.parts c)
  | None => []
  end.

(** A part whose function call is named [adk_request_confirmation]. *)
Definition confirmation_part (part : Genai.Part) : Prop :=
  exists fc, Genai.function_call part = Some fc /\
             Genai.name fc = Some "adk_request_confirmation".

(** The dictionary [check_for_approval] builds from a matching part. *)
Definition approval_info (event : Genai.Event) (fc : Genai.FunctionCall)
    : gmap string PyVal :=
  {[ "approval_id" := of_opt_str (Genai.id fc);
     "invocation_id" := VStr (Genai.invocation_id event) ]}.

(** No part of any of the events is a confirmation part. *)
Definition no_confirmation (events : list Genai.Event) : Prop :=
  forall event part,
    In event events -> In part (event_parts event) -> ~ confirmation_part part.

(** [fc] is the function call of the first confirmation part met when the
    events, and within each event its parts, are scanned in order, and
    [event] is the event that part belongs to. *)
Definition first_confirmation
    (events : list Genai.Event) (event : Genai.Event)
    (fc : Genai.FunctionCall) : Prop :=
  exists before after parts_before part parts_after,
    events = (before ++ event :: after)%list /\
    event_parts event = (parts_before ++ part :: parts_after)%list /\
    no_confirmation before /\
    (forall part', In part' parts_before -> ~ confirmation_part part') /\
    Genai.function_call part = Some fc /\
    Genai.name fc = Some "adk_request_confirmation".

(** Contexts of the demonstration runs. *)
Definition first_call : ToolContext :=
  {| tool_confirmation := None; requested := [] |}.

Definition resumed (answer : bool) (reqs : list ConfirmationRequest)
    : ToolContext :=
  {| tool_confirmation := Some (mkToolConfirmation answer);
     requested := reqs |}.

(** ** The other workflow helpers *)

(** Standard output is modelled by the list of the lines [print] wrote,
    oldest first; a line is the argument of [print], without the newline
    [print] appends. *)

(** Truth value of an [Optional[str]]: [None] and [""] are false. *)
Definition truthy_str (o : option string) : bool :=
  match o with
  | Some (String _ _) => true
  | _ => false
  end.

(** [f"{x}"] for [x : Optional[str]]. *)
Definition fstr (o : option string) : string :=
  match o with
  | Some s => s
  | None => "None"
  end.

(** The inner [for part in event.content.parts] loop of
    [print_agent_response]. *)
Fixpoint print_parts (ps : list Genai.Part) : list string :=
  match ps with
  | [] => []
  | part :: ps' =>
      (if truthy_str (Genai.text part)
       then ["Agent > " +:+ fstr (Genai.text part)]
       else []) ++ print_parts ps'
  end%list.

(** [print_agent_response(events)]: the lines it prints. *)
Fixpoint print_agent_response (events : list Genai.Event) : list string :=
  match events with
  | [] => []
  | event :: events' =>
      (if has_parts event then
         match Genai.content event with
         | Some c => print_parts (default [] (Genai.parts c))
         | None => []
         end
       else []) ++ print_agent_response events'
  end%list.

(** JSON-like values, as a tool response holds them; [JInt] stands for a
    number. *)
Local Unset Elimination Schemes.
Inductive Json : Type :=
  | JNone
  | JBool (b : bool)
  | JInt (z : Z)
  | JStr (s : string)
  | JList (items : list Json)
  | JDict (d : gmap string Json).
Local Set Elimination Schemes.

(** The exceptions of the helper functions. *)
Module Err.

Inductive t : Type :=
  | KeyError (key : string)
  | AttributeError (obj attr : string)
  | TypeError (msg : string)
  | ValueError (msg : string)
  | ValidationError (field : string).

End Err.

(** The message side of the framework's types: the attributes that
    [create_approval_response] sets and [extract_image_from_events]
    reads. The framework declares [id], [name] and [response] of a
    function response as [Optional]. *)
Module Msg.

Record FunctionResponse : Type := mkFunctionResponse {
  id : option string;
  name : option string;
  response : option (gmap string Json)
}.

Record Part : Type := mkPart {
  text : option string;
  function_response : option FunctionResponse
}.

Record Content : Type := mkContent {
  role : option string;
  parts : option (list Part)
}.

Record Event : Type := mkEvent {
  content : option Content
}.

End Msg.

(** [create_approval_response(approval_info, approved)].
    [approval_info["approval_id"]] raises [KeyError] on a missing key; the
    framework validates the [id] of a [FunctionResponse] as
    [Optional[str]] and rejects an integer. *)
Definition create_approval_response
    (approval_info : gmap string PyVal) (approved : bool)
    : Err.t + Msg.Content :=
  match approval_info !! "approval_id" with
  | None => inl (Err.KeyError "approval_id")
  | Some (VInt _) => inl (Err.ValidationError "id")
  | Some v =>
      let confirmation_response :=
        Msg.mkFunctionResponse
          (match v with VStr s => Some s | _ => None end)
          (Some "adk_request_confirmation")
          (Some {[ "confirmed" := JBool approved ]}) in
      inr (Msg.mkContent (Some "user")
             (Some [Msg.mkPart None (Some confirmation_response)]))
  end.

(** [item.get("type") == "image"] followed by [item["data"]], for one
    [item] of a response's content: a dictionary that is not an image is
    skipped, an image without [data] raises [KeyError], and anything that
    is not a dictionary has no [get]. *)
Definition image_of_item (item : Json) : Err.t + option Json :=
  match item with
  | JDict d =>
      match d !! "type" with
      | Some (JStr ty) =>
          if String.eqb ty "image" then
            match d !! "data" with
            | Some data => inr (Some data)
            | None => inl (Err.KeyError "data")
            end
          else inr None
      | _ => inr None
      end
  | JNone => inl (Err.AttributeError "NoneType" "get")
  | JBool _ => inl (Err.AttributeError "bool" "get")
  | JInt _ => inl (Err.AttributeError "int" "get")
  | JStr _ => inl (Err.AttributeError "str" "get")
  | JList _ => inl (Err.AttributeError "list" "get")
  end.

(** The loop [for item in ...: if ...: images.append(item["data"])] over a
    list, [images] being the list collected so far. *)
Fixpoint collect_items (items : list Json) (images : list Json)
    : Err.t + list Json :=
  match items with
  | [] => inr images
  | item :: items' =>
      match image_of_item item with
      | inl e => inl e
      | inr (Some data) => collect_items items' (images ++ [data])
      | inr None => collect_items items' images
      end
  end.

(** The same loop over whatever [response.get("content", [])] returned.
    Iterating a dictionary yields its keys and iterating a string its
    characters: strings, on the first of which [item.get] raises; [None],
    a boolean and a number are not iterable. *)
Definition collect_content (content : Json) (images : list Json)
    : Err.t + list Json :=
  match content with
  | JList items => collect_items items images
  | JDict d =>
      if decide (d = ∅) then inr images
      else inl (Err.AttributeError "str" "get")
  | JStr s =>
      if decide (s = "") then inr images
      else inl (Err.AttributeError "str" "get")
  | JNone => inl (Err.TypeError "'NoneType' object is not iterable")
  | JBool _ => inl (Err.TypeError "'bool' object is not iterable")
  | JInt _ => inl (Err.TypeError "'int' object is not iterable")
  end.

(** The body of [for part in event.content.parts] in
    [extract_image_from_events]. Every part has the attribute
    [function_response], so that [hasattr] holds and the guard is the truth
    value of the attribute; [.get] on a response that is [None] raises. *)
Definition collect_part (part : Msg.Part) (images : list Json)
    : Err.t + list Json :=
  match Msg.function_response part with
  | Some fr =>
      match Msg.response fr with
      | Some resp => collect_content (default (JList []) (resp !! "content")) images
      | None => inl (Err.AttributeError "NoneType" "get")
      end
  | None => inr images
  end.

Fixpoint collect_parts (ps : list Msg.Part) (images : list Json)
    : Err.t + list Json :=
  match ps with
  | [] => inr images
  | part :: ps' =>
      match collect_part part images with
      | inl e => inl e
      | inr images' => collect_parts ps' images'
      end
  end.

(** The outer loop, from the [images] collected so far. *)
Fixpoint collect_events (events : list Msg.Event) (images : list Json)
    : Err.t + list Json :=
  match events with
  | [] => inr images
  | event :: events' =>
      let step :=
        match Msg.content event with
        | Some c =>
            if truthy_list (Msg.parts c)
            then collect_parts (default [] (Msg.parts c)) images
            else inr images
        | None => inr images
        end in
      match step with
      | inl e => inl e
      | inr images' => collect_events events' images'
      end
  end.

(** [extract_image_from_events(events)] *)
Definition extract_image_from_events (events : list Msg.Event)
    : Err.t + list Json :=
  collect_events events [].

(** ** Loading the API key *)

Section Environment.

(** [load_dotenv()] of the dotenv package, as the change it makes to the
    process environment. *)
Variable load_dotenv : gmap string string -> gmap string string.

(** [load_api_key()], over the process environment [os.environ]: the key
    or the raised exception, and the environment left behind. *)
Definition load_api_key (environ : gmap string string)
    : (Err.t + string) * gmap string string :=
  let environ := load_dotenv environ in
  let api_key := environ !! "GOOGLE_API_KEY" in
  if negb (truthy_str api_key) then
    (inl (Err.ValueError
            ("❌ GOOGLE_API_KEY not found. Please create a .env file with your API key."
             +:+ String (Ascii.ascii_of_nat 10) ""
             +:+ "Get your API key from: https://aistudio.google.com/app/apikey")),
     environ)
  else
    (inr (fstr api_key), <["GOOGLE_API_KEY" := fstr api_key]> environ).

End Environment.

(** ** The shipping workflow *)

(** A call of [runner.run_async]. *)
Module Runner.

Record Call : Type := mkCall {
  user_id : string;
  session_id : string;
  new_message : Msg.Content;
  invocation_id : PyVal
}.

End Runner.

(** What [run_shipping_workflow] does to the outside, in order. *)
Inductive Action : Type :=
  | Print (line : string)
  | CreateSession (app_name user_id session_id : string)
  | RunAsync (call : Runner.Call).

(** ["\n"] *)
Definition nl : string := String (Ascii.ascii_of_nat 10) "".

(** [s * n] on strings. *)
Fixpoint str_repeat (s : string) (n : nat) : string :=
  match n with
  | O => ""
  | S n' => s +:+ str_repeat s n'
  end.

(** Truth value of an [Optional[dict]]: [None] and [{}] are false. *)
Definition truthy_dict (o : option (gmap string PyVal)) : bool :=
  match o with
  | Some d => negb (bool_decide (d = ∅))
  | None => false
  end.

(** The loops over the events of the resumed run, which print every
    non-empty text part. *)
Fixpoint print_resumed_parts (ps : list Genai.Part) : list string :=
  match ps with
  | [] => []
  | part :: ps' =>
      (if truthy_str (Genai.text part)
       then ["🤖 Agent > " +:+ fstr (Genai.text part)]
       else []) ++ print_resumed_parts ps'
  end%list.

Fixpoint print_resumed (events : list Genai.Event) : list string :=
  match events with
  | [] => []
  | event :: events' =>
      (if has_parts event then
         match Genai.content event with
         | Some c => print_resumed_parts (default [] (Genai.parts c))
         | None => []
         end
       else []) ++ print_resumed events'
  end%list.

Section Workflow.

(** [uuid.uuid4().hex] *)
Variable uuid4_hex : string.

(** The events a call of [runner.run_async] yields. The runner and the
    session service are the framework's; exceptions of theirs are not
    modelled. *)
Variable run_async : Runner.Call -> list Genai.Event.

(** [run_shipping_workflow(runner, session_service, query, auto_approve)]:
    its actions in order, and the exception it ended with, if any. *)
Definition run_shipping_workflow (query : string) (auto_approve : bool)
    : list Action * option Err.t :=
  let session_id := "order_" +:+ substring 0 8 uuid4_hex in
  let query_content :=
    Msg.mkContent (Some "user") (Some [Msg.mkPart (Some query) None]) in
  (* STEP 1: send initial request *)
  let first_run := Runner.mkCall "test_user" session_id query_content VNone in
  let events := run_async first_run in
  let started :=
    [ Print (nl +:+ str_repeat "=" 80);
      Print ("💬 User > " +:+ query +:+ nl);
      CreateSession "shipping_coordinator" "test_user" session_id;
      Print ("🚀 Starting workflow..." +:+ nl);
      RunAsync first_run ] in
  let closing := [ Print (str_repeat "=" 80 +:+ nl) ] in
  (* STEP 2: check if agent paused for approval *)
  let approval_info := check_for_approval events in
  (* STEP 3: handle approval workflow *)
  if truthy_dict approval_info then
    let paused :=
      [ Print "⏸️  Agent paused - large order requires approval";
        Print ("🤔 Simulating human decision: "
               +:+ (if auto_approve then "APPROVE ✅" else "REJECT ❌") +:+ nl);
        Print ("▶️  Resuming workflow with decision..." +:+ nl) ] in
    match approval_info with
    | Some info =>
        match create_approval_response info auto_approve with
        | inl e => ((started ++ paused)%list, Some e)
        | inr decision_message =>
            match info !! "invocation_id" with
            | None =>
                ((started ++ paused)%list, Some (Err.KeyError "invocation_id"))
            | Some inv =>
                let resumed_run :=
                  Runner.mkCall "test_user" session_id decision_message inv in
                ((started ++ paused ++ [RunAsync resumed_run]
                    ++ (Print <$> print_resumed (run_async resumed_run))
                    ++ closing)%list,
                 None)
            end
        end
    | None =>
        ((started ++ paused)%list,
         Some (Err.TypeError "'NoneType' object is not subscriptable"))
    end
  else
    ((started
        ++ [Print ("✅ No approval needed - order completed immediately" +:+ nl)]
        ++ (Print <$> print_agent_response events)
        ++ closing)%list,
     None).

End Workflow.

(** The calls of [runner.run_async] among a list of actions. *)
Fixpoint run_calls (actions : list Action) : list Runner.Call :=
  match actions with
  | [] => []
  | RunAsync call :: actions' => call :: run_calls actions'
  | _ :: actions' => run_calls actions'
  end.

(** The lines printed among a list of actions. *)
Fixpoint printed (actions : list Action) : list string :=
  match actions with
  | [] => []
  | Print line :: actions' => line :: printed actions'
  | _ :: actions' => printed actions'
  end.

(** ** Vocabulary for the helpers *)

(** The last character of a string. *)
Fixpoint last_char (s : string) : option Ascii.ascii :=
  match s with
  | "" => None
  | String c "" => Some c
  | String _ s' => last_char s'
  end.

(** The non-empty text of a part, if it has one. *)
Definition part_text (part : Genai.Part) : list string :=
  match Genai.text part with
  | Some (String c s) => [String c s]
  | _ => []
  end.

(** The non-empty texts of the parts of the events, in order. *)
Definition texts (events : list Genai.Event) : list string :=
  flat_map (fun event => flat_map part_text (event_parts event)) events.

(** The parts of a message event, none when it has no content or no part
    list. *)
Definition msg_parts (event : Msg.Event) : list Msg.Part :=
  match Msg.content event with
  | Some c => default [] (Msg.parts c)
  | None => []
  end.

(** The items of a part's function response, when its [content] is a
    list. *)
Definition part_items (part : Msg.Part) : list Json :=
  match Msg.function_response part with
  | Some fr =>
      match Msg.response fr with
      | Some resp =>
          match resp !! "content" with
          | Some (JList items) => items
          | _ => []
          end
      | None => []
      end
  | None => []
  end.

(** All response items of the events, in order. *)
Definition response_items (events : list Msg.Event) : list Json :=
  flat_map (fun event => flat_map part_items (msg_parts event)) events.

(** A part whose function response, if any, has a response dictionary
    with no [content] or a list as [content]. *)
Definition shaped_part (part : Msg.Part) : bool :=
  match Msg.function_response part with
  | Some fr =>
      match Msg.response fr with
      | Some resp =>
          match resp !! "content" with
          | None | Some (JList _) => true
          | Some _ => false
          end
      | None => false
      end
  | None => true
  end.

Definition shaped (events : list Msg.Event) : bool :=
  forallb (fun event => forallb shaped_part (msg_parts event)) events.

(** An item the extraction accepts: a dictionary which, if its [type] is
    ["image"], has a [data] entry. *)
Definition usable_item (item : Json) : bool :=
  match item with
  | JDict d =>
      match d !! "type" with
      | Some (JStr ty) =>
          if String.eqb ty "image" then
            match d !! "data" with Some _ => true | None => false end
          else true
      | _ => true
      end
  | _ => false
  end.

(** An image item without [data]. *)
Definition broken_image (item : Json) : bool :=
  match item with
  | JDict d =>
      match d !! "type", d !! "data" with
      | Some (JStr ty), None => String.eqb ty "image"
      | _, _ => false
      end
  | _ => false
  end.

(** The [data] of an image item. *)
Definition item_image (item : Json) : option Json :=
  match item with
  | JDict d =>
      match d !! "type" with
      | Some (JStr ty) => if String.eqb ty "image" then d !! "data" else None
      | _ => None
      end
  | _ => None
  end.

(** The message [create_approval_response] builds for a call id and a
    decision. *)
Definition approval_message (call_id : option string) (approved : bool)
    : Msg.Content :=
  {| Msg.role := Some "user";
     Msg.parts :=
       Some [ {| Msg.text := None;
                 Msg.function_response :=
                   Some {| Msg.id := call_id;
                           Msg.name := Some "adk_request_confirmation";
                           Msg.response :=
                             Some {[ "confirmed" := JBool approved ]} |} |} ] |}.

(** The two calls of [runner.run_async] the workflow can make: the first
    run with the user's query, and the resumed run with the decision for
    the call [call_id] of the invocation [inv]. *)
Definition first_run (uuid4_hex query : string) : Runner.Call :=
  {| Runner.user_id := "test_user";
     Runner.session_id := "order_" +:+ substring 0 8 uuid4_hex;
     Runner.new_message :=
       {| Msg.role := Some "user";
          Msg.parts :=
            Some [ {| Msg.text := Some query;
                      Msg.function_response := None |} ] |};
     Runner.invocation_id := VNone |}.

Definition resumed_run
    (uuid4_hex : string) (call_id : option string) (inv : string)
    (approved : bool) : Runner.Call :=
  {| Runner.user_id := "test_user";
     Runner.session_id := "order_" +:+ substring 0 8 uuid4_hex;
     Runner.new_message := approval_message call_id approved;
     Runner.invocation_id := VStr inv |}.

(** The ruler line ['='*80]. *)
Definition ruler : string := str_repeat "=" 80.

(** A runner for demonstration: it pauses the first run on a confirmation
    request and reports on the resumed one. *)
Definition demo_runner (call : Runner.Call) : list Genai.Event :=
  match Runner.invocation_id call with
  | VNone =>
      [ Genai.mkEvent "inv-2"
          (Some (Genai.mkContent (Some
             [ Genai.mkPart (Some "Placing the order") None;
               Genai.mkPart None
                 (Some (Genai.mkFunctionCall (Some "call-3")
                          (Some "adk_request_confirmation"))) ]))) ]
  | _ =>
      [ Genai.mkEvent "inv-2"
          (Some (Genai.mkContent (Some
             [ Genai.mkPart (Some "Order rejected") None ]))) ]
  end.

(** The result of a loop that started from [acc]: the same error, or the
    images after [acc]. *)
Definition onto (acc : list Json) (r : Err.t + list Json) : Err.t + list Json :=
  match r with
  | inl e => inl e
  | inr images => inr (acc ++ images)%list
  end.

(** Events of a tool run for demonstration: a text item and two images in
    a first response, an image without data in a second. *)
Definition demo_image (data : string) : Json :=
  JDict {[ "type" := JStr "image"; "data" := JStr data ]}.

Definition demo_response (items : list Json) : Msg.Event :=
  Msg.mkEvent
    (Some (Msg.mkContent (Some "user")
       (Some [ Msg.mkPart (Some "tool output") None;
               Msg.mkPart None
                 (Some (Msg.mkFunctionResponse (Some "call-1") (Some "getTinyImage")
                          (Some {[ "content" := JList items ]}))) ]))).

(** ** The gate, path by path *)

Section GatePaths.

Variables (q : Z) (d : string) (ctx : ToolContext).

Lemma gate_small :
  q <= 5 -> place_shipping_order q d ctx = (Return (auto_approved q d), ctx).
Proof.
  intros Hq. unfold place_shipping_order, LARGE_ORDER_THRESHOLD.
  destruct (Z.leb_spec q 5) as [_ | Hgt]; [reflexivity | lia].
Qed.

Lemma gate_pause :
  5 < q -> tool_confirmation ctx = None ->
  place_shipping_order q d ctx =
    (Return (pending_approval q),
     {| tool_confirmation := None;
        requested := requested ctx ++ [confirmation_request q d] |}).
Proof.
  intros Hq Hnone. unfold place_shipping_order, LARGE_ORDER_THRESHOLD.
  destruct (Z.leb_spec q 5) as [Hle | _]; [lia |].
  unfold mbind, Tool_bind, get_tool_confirmation.
  rewrite Hnone. cbn [truthy negb].
  unfold request_confirmation. rewrite Hnone. reflexivity.
Qed.

Lemma gate_resume (tc : ToolConfirmation) :
  5 < q -> tool_confirmation ctx = Some tc ->
  place_shipping_order q d ctx =
    (Return (if confirmed tc then approved q d else rejected q d), ctx).
Proof.
  intros Hq Hsome. unfold place_shipping_order, LARGE_ORDER_THRESHOLD.
  destruct (Z.leb_spec q 5) as [Hle | _]; [lia |].
  unfold mbind, Tool_bind, get_tool_confirmation.
  rewrite Hsome. cbn [truthy negb]. rewrite Hsome. cbn [get_confirmed].
  unfold mret, Tool_ret. destruct (confirmed tc); reflexivity.
Qed.

End GatePaths.

(** ** Helper facts *)

Lemma str_app_assoc (a b c : string) : (a +:+ b) +:+ c = a +:+ b +:+ c.
Proof.
  induction a as [| ch a IH]; [reflexivity |].
  change (String ch ((a +:+ b) +:+ c) = String ch (a +:+ b +:+ c)).
  now rewrite IH.
Qed.

Lemma str_contains_mid (pre sub post : string) :
  str_contains (pre +:+ sub +:+ post) sub.
Proof. exists pre, post. reflexivity. Qed.

Lemma hint_contains_quantity (q : Z) (d : string) :
  str_contains (hint (confirmation_request q d)) (str_int q).
Proof. apply str_contains_mid. Qed.

Lemma hint_contains_destination (q : Z) (d : string) :
  str_contains (hint (confirmation_request q d)) d.
Proof.
  exists ("⚠️ Large order: " +:+ str_int q +:+ " containers to "), ". Approve?".
  cbn [hint confirmation_request]. now rewrite !str_app_assoc.
Qed.

(** Whatever the input, the call returns the dictionary [decision] names,
    and leaves the resume state of the context as it found it. *)
Lemma gate_decision (q : Z) (d : string) (ctx : ToolContext) :
  exists ctx',
    place_shipping_order q d ctx =
      (Return (decision q d (tool_confirmation ctx)), ctx') /\
    tool_confirmation ctx' = tool_confirmation ctx.
Proof.
  unfold decision. destruct (Z.leb_spec q 5) as [Hle | Hgt].
  - exists ctx. now rewrite gate_small.
  - destruct (tool_confirmation ctx) as [tc |] eqn:Htc.
    + exists ctx. now rewrite (gate_resume q d ctx tc).
    + eexists. rewrite gate_pause by assumption. split; reflexivity.
Qed.

Lemma auto_approved_wf (q : Z) (d : string) : well_formed (auto_approved q d).
Proof.
  repeat split; try (eexists; split; [reflexivity | left; reflexivity]);
    try (eexists; reflexivity); reflexivity.
Qed.

Lemma approved_wf (q : Z) (d : string) : well_formed (approved q d).
Proof.
  repeat split; try (eexists; split; [reflexivity | left; reflexivity]);
    try (eexists; reflexivity); reflexivity.
Qed.

Lemma pending_approval_wf (q : Z) : well_formed (pending_approval q).
Proof.
  split; [eexists; split; [reflexivity | right; left; reflexivity] |].
  split; [eexists; reflexivity |].
  split.
  - intros [v Hv]. discriminate Hv.
  - intros H. discriminate H.
Qed.

Lemma rejected_wf (q : Z) (d : string) : well_formed (rejected q d).
Proof.
  split; [eexists; split; [reflexivity | right; right; reflexivity] |].
  split; [eexists; reflexivity |].
  split.
  - intros [v Hv]. discriminate Hv.
  - intros H. discriminate H.
Qed.

Lemma decision_wf (q : Z) (d : string) (resume : option ToolConfirmation) :
  well_formed (decision q d resume).
Proof.
  unfold decision. destruct (q <=? 5)%Z; [apply auto_approved_wf |].
  destruct resume as [tc |]; [| apply pending_approval_wf].
  destruct (confirmed tc); [apply approved_wf | apply rejected_wf].
Qed.

(** ** Properties of the gate *)

(** C1. For every quantity with 0 <= quantity <= 5 and every destination,
    a first call (no resume state) returns a result with status
    "approved" and order_id "ORD-{quantity}-AUTO", and the context's
    record of confirmation requests is unchanged: none is emitted. *)
Theorem small_order_first_call_auto_approved
    (q : Z) (d : string) (ctx : ToolContext) :
  0 <= q <= 5 ->
  tool_confirmation ctx = None ->
  exists r ctx',
    place_shipping_order q d ctx = (Return r, ctx') /\
    r !! "status" = Some (VStr "approved") /\
    r !! "order_id" = Some (VStr ("ORD-" +:+ str_int q +:+ "-AUTO")) /\
    requested ctx' = requested ctx.
Proof.
  intros [_ Hq] _. exists (auto_approved q d), ctx.
  rewrite gate_small by assumption. repeat split.
Qed.

Lemma small_order_first_call_auto_approved_witness :
  0 <= 3 <= 5 /\
  tool_confirmation first_call = None /\
  exists r ctx',
    place_shipping_order 3 "Singapore" first_call = (Return r, ctx') /\
    r !! "status" = Some (VStr "approved") /\
    r !! "order_id" = Some (VStr ("ORD-" +:+ str_int 3 +:+ "-AUTO")) /\
    requested ctx' = requested first_call.
Proof.
  split; [lia |]. split; [reflexivity |].
  apply (small_order_first_call_auto_approved 3 "Singapore" first_call);
    [lia | reflexivity].
Defined.

(** C2. For every quantity > 5 and every destination, a first call (no
    resume state) returns a result with status "pending" and no order_id,
    and emits exactly one confirmation request: its payload holds the
    request's quantity and destination, and its hint contains the quantity
    and the destination. *)
Theorem large_order_first_call_pauses
    (q : Z) (d : string) (ctx : ToolContext) :
  5 < q ->
  tool_confirmation ctx = None ->
  exists r ctx' req,
    place_shipping_order q d ctx = (Return r, ctx') /\
    r !! "status" = Some (VStr "pending") /\
    r !! "order_id" = None /\
    requested ctx' = (requested ctx ++ [req])%list /\
    payload req = {[ "num_containers" := VInt q; "destination" := VStr d ]} /\
    str_contains (hint req) (str_int q) /\
    str_contains (hint req) d.
Proof.
  intros Hq Hnone.
  eexists (pending_approval q), _, (confirmation_request q d).
  rewrite gate_pause by assumption.
  split; [reflexivity |]. split; [reflexivity |]. split; [reflexivity |].
  split; [reflexivity |]. split; [reflexivity |].
  split; [apply hint_contains_quantity | apply hint_contains_destination].
Qed.

Lemma large_order_first_call_pauses_witness :
  5 < 10 /\
  tool_confirmation first_call = None /\
  exists r ctx' req,
    place_shipping_order 10 "Rotterdam" first_call = (Return r, ctx') /\
    r !! "status" = Some (VStr "pending") /\
    r !! "order_id" = None /\
    requested ctx' = (requested first_call ++ [req])%list /\
    payload req =
      {[ "num_containers" := VInt 10; "destination" := VStr "Rotterdam" ]} /\
    str_contains (hint req) (str_int 10) /\
    str_contains (hint req) "Rotterdam".
Proof.
  split; [lia |]. split; [reflexivity |].
  apply (large_order_first_call_pauses 10 "Rotterdam" first_call);
    [lia | reflexivity].
Defined.

(** C3. For every quantity > 5, a resumed call (resume state present)
    with confirmed = true returns a result with status "approved" and
    order_id "ORD-{quantity}-HUMAN". *)
Theorem large_order_resume_confirmed
    (q : Z) (d : string) (ctx : ToolContext) (tc : ToolConfirmation) :
  5 < q ->
  tool_confirmation ctx = Some tc ->
  confirmed tc = true ->
  exists r ctx',
    place_shipping_order q d ctx = (Return r, ctx') /\
    r !! "status" = Some (VStr "approved") /\
    r !! "order_id" = Some (VStr ("ORD-" +:+ str_int q +:+ "-HUMAN")).
Proof.
  intros Hq Hsome Hyes. exists (approved q d), ctx.
  rewrite (gate_resume q d ctx tc), Hyes by assumption. repeat split.
Qed.

Lemma large_order_resume_confirmed_witness :
  5 < 10 /\
  tool_confirmation (resumed true []) = Some (mkToolConfirmation true) /\
  confirmed (mkToolConfirmation true) = true /\
  exists r ctx',
    place_shipping_order 10 "Rotterdam" (resumed true []) = (Return r, ctx') /\
    r !! "status" = Some (VStr "approved") /\
    r !! "order_id" = Some (VStr ("ORD-" +:+ str_int 10 +:+ "-HUMAN")).
Proof.
  split; [lia |]. split; [reflexivity |]. split; [reflexivity |].
  apply (large_order_resume_confirmed 10 "Rotterdam" (resumed true [])
           (mkToolConfirmation true)); [lia | reflexivity | reflexivity].
Defined.

(** C4. For every quantity > 5, a resumed call (resume state present)
    with confirmed = false returns a result with status "rejected" and no
    order_id key. *)
Theorem large_order_resume_declined
    (q : Z) (d : string) (ctx : ToolContext) (tc : ToolConfirmation) :
  5 < q ->
  tool_confirmation ctx = Some tc ->
  confirmed tc = false ->
  exists r ctx',
    place_shipping_order q d ctx = (Return r, ctx') /\
    r !! "status" = Some (VStr "rejected") /\
    r !! "order_id" = None.
Proof.
  intros Hq Hsome Hno. exists (rejected q d), ctx.
  rewrite (gate_resume q d ctx tc), Hno by assumption. repeat split.
Qed.

Lemma large_order_resume_declined_witness :
  5 < 8 /\
  tool_confirmation (resumed false []) = Some (mkToolConfirmation false) /\
  confirmed (mkToolConfirmation false) = false /\
  exists r ctx',
    place_shipping_order 8 "Los Angeles" (resumed false []) = (Return r, ctx') /\
    r !! "status" = Some (VStr "rejected") /\
    r !! "order_id" = None.
Proof.
  split; [lia |]. split; [reflexivity |]. split; [reflexivity |].
  apply (large_order_resume_declined 8 "Los Angeles" (resumed false [])
           (mkToolConfirmation false)); [lia | reflexivity | reflexivity].
Defined.

(** C5, as stated, fails: with a resume state present and confirmed =
    false, a request for 3 containers is not rejected. The threshold test
    comes first, so the call returns the auto-approved result with
    identifier "ORD-3-AUTO". *)
Lemma resume_small_order_is_auto_approved :
  place_shipping_order 3 "Singapore" (resumed false []) =
    (Return (auto_approved 3 "Singapore"), resumed false []) /\
  auto_approved 3 "Singapore" !! "status" = Some (VStr "approved") /\
  auto_approved 3 "Singapore" !! "order_id" = Some (VStr "ORD-3-AUTO") /\
  ~ (exists r ctx',
       place_shipping_order 3 "Singapore" (resumed false []) = (Return r, ctx') /\
       resume_outcome 3 "Singapore" (mkToolConfirmation false) r).
Proof.
  assert (Hrun : place_shipping_order 3 "Singapore" (resumed false []) =
                 (Return (auto_approved 3 "Singapore"), resumed false []))
    by (apply gate_small; lia).
  split; [exact Hrun |]. split; [reflexivity |]. split; [reflexivity |].
  intros (r & ctx' & Hr & Hstatus & _).
  rewrite Hrun in Hr. injection Hr as <- _. discriminate Hstatus.
Qed.

(** C5, amended. Whenever the resume state is present, the call returns
    and leaves the context unchanged; for a quantity above the threshold
    the result is approved with a -HUMAN identifier if confirmed = true
    and rejected with no identifier if confirmed = false; for a quantity
    of at most 5 the threshold test takes precedence and the result is the
    auto-approved one. *)
Theorem resume_outcome_above_threshold
    (q : Z) (d : string) (ctx : ToolContext) (tc : ToolConfirmation) :
  tool_confirmation ctx = Some tc ->
  exists r,
    place_shipping_order q d ctx = (Return r, ctx) /\
    (5 < q -> resume_outcome q d tc r) /\
    (q <= 5 -> r = auto_approved q d).
Proof.
  intros Hsome. destruct (Z.le_gt_cases q 5) as [Hle | Hgt].
  - exists (auto_approved q d). rewrite gate_small by assumption.
    split; [reflexivity |]. split; [lia | reflexivity].
  - exists (if confirmed tc then approved q d else rejected q d).
    rewrite (gate_resume q d ctx tc) by assumption.
    split; [reflexivity |]. split; [| lia].
    intros _. unfold resume_outcome. destruct (confirmed tc); split; reflexivity.
Qed.

Lemma resume_outcome_above_threshold_witness :
  tool_confirmation (resumed true []) = Some (mkToolConfirmation true) /\
  exists r,
    place_shipping_order 10 "Rotterdam" (resumed true []) =
      (Return r, resumed true []) /\
    (5 < 10 -> resume_outcome 10 "Rotterdam" (mkToolConfirmation true) r) /\
    (10 <= 5 -> r = auto_approved 10 "Rotterdam").
Proof.
  split; [reflexivity |].
  apply (resume_outcome_above_threshold 10 "Rotterdam" (resumed true [])
           (mkToolConfirmation true)); reflexivity.
Defined.

(** C6. For every input (any quantity, any destination, resume state
    present or absent) the call returns a dictionary whose status is one
    of "approved", "pending", "rejected", which holds a message string,
    and which holds an order_id exactly when the status is "approved". *)
Theorem result_is_well_formed (q : Z) (d : string) (ctx : ToolContext) :
  exists r ctx',
    place_shipping_order q d ctx = (Return r, ctx') /\
    (exists s, r !! "status" = Some s /\
               (s = VStr "approved" \/ s = VStr "pending" \/ s = VStr "rejected")) /\
    (exists m, r !! "message" = Some (VStr m)) /\
    (is_Some (r !! "order_id") <-> r !! "status" = Some (VStr "approved")).
Proof.
  destruct (gate_decision q d ctx) as (ctx' & Hrun & _).
  exists (decision q d (tool_confirmation ctx)), ctx'.
  split; [exact Hrun |]. apply decision_wf.
Qed.

(** With the conversion of integers to strings taken as total, the call
    returns, for every quantity, destination and context, the outcome the
    threshold comparison and the confirmed flag determine, and no run ends
    in a raised exception: the read of [confirmed] is guarded. *)
Lemma gate_total_never_raises (q : Z) (d : string) (ctx : ToolContext) :
  (exists ctx',
     place_shipping_order q d ctx =
       (Return (decision q d (tool_confirmation ctx)), ctx')) /\
  (forall e ctx', place_shipping_order q d ctx <> (Raise e, ctx')).
Proof.
  destruct (gate_decision q d ctx) as (ctx' & Hrun & _). split.
  - exists ctx'. exact Hrun.
  - intros e ctx'' Hraise. rewrite Hrun in Hraise. discriminate Hraise.
Qed.

(** ** The gate and the interpreter's digit limit *)

Lemma exceeds_max_str_digits_false (max_str_digits q : Z) :
  max_str_digits <= 0 \/ Z.abs q < 10 ^ max_str_digits ->
  exceeds_max_str_digits max_str_digits q = false.
Proof.
  unfold exceeds_max_str_digits. intros [Hoff | Hfew].
  - destruct (Z.ltb_spec 0 max_str_digits) as [Hpos | _]; [lia | reflexivity].
  - destruct (Z.leb_spec (10 ^ max_str_digits) (Z.abs q)) as [Hle | _];
      [lia | apply andb_false_r].
Qed.

Lemma exceeds_max_str_digits_true (max_str_digits q : Z) :
  0 < max_str_digits -> 10 ^ max_str_digits <= Z.abs q ->
  exceeds_max_str_digits max_str_digits q = true.
Proof.
  unfold exceeds_max_str_digits. intros Hpos Hmany.
  apply andb_true_intro. split; [now apply Z.ltb_lt | now apply Z.leb_le].
Qed.

(** Within the limit the limited gate is the gate. *)
Lemma limited_gate_within
    (max_str_digits q : Z) (d : string) (ctx : ToolContext) :
  exceeds_max_str_digits max_str_digits q = false ->
  place_shipping_order_limited max_str_digits q d ctx =
    place_shipping_order q d ctx.
Proof.
  intros Hwithin.
  unfold place_shipping_order_limited, place_shipping_order, format_int.
  rewrite Hwithin. destruct (q <=? LARGE_ORDER_THRESHOLD)%Z; [reflexivity |].
  unfold mbind, Tool_bind, get_tool_confirmation.
  destruct (tool_confirmation ctx) as [[[|]] |] eqn:Htc; cbn [truthy negb];
    rewrite ?Htc; reflexivity.
Qed.

(** With the limit off the limited gate is the gate, for every quantity. *)
Lemma limited_gate_unlimited (q : Z) (d : string) (ctx : ToolContext) :
  place_shipping_order_limited 0 q d ctx = place_shipping_order q d ctx.
Proof.
  apply limited_gate_within, exceeds_max_str_digits_false. now left.
Qed.

(** Beyond the limit every path raises at its first f-string, before any
    confirmation request is made. *)
Lemma limited_gate_beyond
    (max_str_digits q : Z) (d : string) (ctx : ToolContext) :
  exceeds_max_str_digits max_str_digits q = true ->
  exists msg,
    place_shipping_order_limited max_str_digits q d ctx =
      (Raise (ValueError msg), ctx).
Proof.
  intros Hbeyond. eexists.
  unfold place_shipping_order_limited, format_int.
  rewrite Hbeyond. destruct (q <=? LARGE_ORDER_THRESHOLD)%Z; [reflexivity |].
  unfold mbind, Tool_bind, get_tool_confirmation.
  destruct (tool_confirmation ctx) as [[[|]] |] eqn:Htc; cbn [truthy negb];
    rewrite ?Htc; reflexivity.
Qed.

(** C7, as stated, fails: under the interpreter's default limit of 4300
    digits, a first call for 10^4300 containers does not return. The
    quantity is above the threshold and there is no resume state, so the
    call reaches the hint of the confirmation request, whose f-string
    converts the quantity to a string: ValueError is raised, and no
    request is made. A call for -(10^4300) containers raises in the same
    way on the order_id of the auto-approved result. *)
Lemma gate_raises_beyond_digit_limit :
  (exists msg,
     place_shipping_order_limited DEFAULT_MAX_STR_DIGITS (10 ^ 4300)
       "Rotterdam" first_call = (Raise (ValueError msg), first_call)) /\
  (exists msg,
     place_shipping_order_limited DEFAULT_MAX_STR_DIGITS (- 10 ^ 4300)
       "" first_call = (Raise (ValueError msg), first_call)) /\
  ~ (exists r ctx',
       place_shipping_order_limited DEFAULT_MAX_STR_DIGITS (10 ^ 4300)
         "Rotterdam" first_call = (Return r, ctx')).
Proof.
  assert (Hbig : 0 <= 10 ^ 4300) by (apply Z.pow_nonneg; discriminate).
  assert (Hpos : exceeds_max_str_digits DEFAULT_MAX_STR_DIGITS (10 ^ 4300) = true).
  { apply exceeds_max_str_digits_true; [reflexivity |].
    rewrite (Z.abs_eq _ Hbig). apply Z.le_refl. }
  assert (Hneg : exceeds_max_str_digits DEFAULT_MAX_STR_DIGITS (- 10 ^ 4300) = true).
  { apply exceeds_max_str_digits_true; [reflexivity |].
    rewrite Z.abs_opp, (Z.abs_eq _ Hbig). apply Z.le_refl. }
  destruct (limited_gate_beyond _ _ "Rotterdam" first_call Hpos) as [msg Hmsg].
  split; [exists msg; exact Hmsg |].
  split; [exact (limited_gate_beyond _ _ "" first_call Hneg) |].
  intros (r & ctx' & Hret). rewrite Hmsg in Hret. discriminate Hret.
Qed.

(** C7, amended. For every integer quantity within the interpreter's
    limit on int-to-str conversion (fewer than 10^4300 in absolute value
    under the default limit of 4300 digits; any integer when the limit is
    off), negative ones included, and every destination, the empty string
    included, with the resume state present or absent, the call returns
    the outcome the threshold comparison and the confirmed flag determine,
    and no run ends in a raised exception. *)
Theorem gate_total_within_digit_limit
    (max_str_digits q : Z) (d : string) (ctx : ToolContext) :
  max_str_digits <= 0 \/ Z.abs q < 10 ^ max_str_digits ->
  (exists ctx',
     place_shipping_order_limited max_str_digits q d ctx =
       (Return (decision q d (tool_confirmation ctx)), ctx')) /\
  (forall e ctx',
     place_shipping_order_limited max_str_digits q d ctx <> (Raise e, ctx')).
Proof.
  intros Hwithin. apply exceeds_max_str_digits_false in Hwithin.
  rewrite (limited_gate_within _ _ d ctx Hwithin).
  destruct (gate_decision q d ctx) as (ctx' & Hrun & _). split.
  - exists ctx'. exact Hrun.
  - intros e ctx'' Hraise. rewrite Hrun in Hraise. discriminate Hraise.
Qed.

Lemma gate_total_within_digit_limit_witness :
  (DEFAULT_MAX_STR_DIGITS <= 0 \/ Z.abs (-2) < 10 ^ DEFAULT_MAX_STR_DIGITS) /\
  (exists ctx',
     place_shipping_order_limited DEFAULT_MAX_STR_DIGITS (-2) "" first_call =
       (Return (decision (-2) "" (tool_confirmation first_call)), ctx')) /\
  (forall e ctx',
     place_shipping_order_limited DEFAULT_MAX_STR_DIGITS (-2) "" first_call
       <> (Raise e, ctx')).
Proof.
  split; [right; reflexivity |].
  apply (gate_total_within_digit_limit DEFAULT_MAX_STR_DIGITS (-2) "" first_call).
  right. reflexivity.
Defined.

(** C8. The gate is deterministic and stateless: two calls with the same
    quantity, destination and resume state return the same result,
    whatever else their contexts hold; a call leaves the resume state as
    it was, so that repeating the call on the context the first call left
    behind returns the same result again. *)
Theorem gate_deterministic
    (q : Z) (d : string) (ctx1 ctx2 : ToolContext) :
  tool_confirmation ctx1 = tool_confirmation ctx2 ->
  fst (place_shipping_order q d ctx1) = fst (place_shipping_order q d ctx2) /\
  tool_confirmation (snd (place_shipping_order q d ctx1)) =
    tool_confirmation ctx1 /\
  fst (place_shipping_order q d (snd (place_shipping_order q d ctx1))) =
    fst (place_shipping_order q d ctx1).
Proof.
  intros Hsame.
  destruct (gate_decision q d ctx1) as (ctx1' & Hrun1 & Hkeep1).
  destruct (gate_decision q d ctx2) as (ctx2' & Hrun2 & _).
  destruct (gate_decision q d ctx1') as (ctx1'' & Hrun1' & _).
  rewrite Hrun1, Hrun2. cbn [fst snd]. rewrite Hrun1'. cbn [fst].
  split; [now rewrite Hsame |]. split; [exact Hkeep1 |]. now rewrite Hkeep1.
Qed.

Lemma gate_deterministic_witness :
  tool_confirmation first_call =
    tool_confirmation
      {| tool_confirmation := None;
         requested := [confirmation_request 7 "Mombasa"] |} /\
  fst (place_shipping_order 10 "Rotterdam" first_call) =
    fst (place_shipping_order 10 "Rotterdam"
           {| tool_confirmation := None;
              requested := [confirmation_request 7 "Mombasa"] |}) /\
  tool_confirmation (snd (place_shipping_order 10 "Rotterdam" first_call)) =
    tool_confirmation first_call /\
  fst (place_shipping_order 10 "Rotterdam"
         (snd (place_shipping_order 10 "Rotterdam" first_call))) =
    fst (place_shipping_order 10 "Rotterdam" first_call).
Proof.
  split; [reflexivity |].
  apply (gate_deterministic 10 "Rotterdam" first_call
           {| tool_confirmation := None;
              requested := [confirmation_request 7 "Mombasa"] |}).
  reflexivity.
Defined.

(** C9. For every quantity <= 5 the gate returns the auto-approved result
    with order_id "ORD-{quantity}-AUTO" also when a resume state is
    present: the threshold is tested first, the context is left untouched
    and the result is the same whatever the human's confirmed flag. *)
Theorem small_order_ignores_resume_state
    (q : Z) (d : string) (ctx : ToolContext) (tc : ToolConfirmation) :
  q <= 5 ->
  tool_confirmation ctx = Some tc ->
  exists r,
    place_shipping_order q d ctx = (Return r, ctx) /\
    r !! "status" = Some (VStr "approved") /\
    r !! "order_id" = Some (VStr ("ORD-" +:+ str_int q +:+ "-AUTO")) /\
    forall answer : bool,
      place_shipping_order q d
        {| tool_confirmation := Some (mkToolConfirmation answer);
           requested := requested ctx |} =
      (Return r,
       {| tool_confirmation := Some (mkToolConfirmation answer);
          requested := requested ctx |}).
Proof.
  intros Hq _. exists (auto_approved q d).
  rewrite gate_small by assumption. repeat split.
  intros answer. now apply gate_small.
Qed.

Lemma small_order_ignores_resume_state_witness :
  3 <= 5 /\
  tool_confirmation (resumed false []) = Some (mkToolConfirmation false) /\
  exists r,
    place_shipping_order 3 "Singapore" (resumed false []) =
      (Return r, resumed false []) /\
    r !! "status" = Some (VStr "approved") /\
    r !! "order_id" = Some (VStr ("ORD-" +:+ str_int 3 +:+ "-AUTO")) /\
    forall answer : bool,
      place_shipping_order 3 "Singapore"
        {| tool_confirmation := Some (mkToolConfirmation answer);
           requested := requested (resumed false []) |} =
      (Return r,
       {| tool_confirmation := Some (mkToolConfirmation answer);
          requested := requested (resumed false []) |}).
Proof.
  split; [lia |]. split; [reflexivity |].
  apply (small_order_ignores_resume_state 3 "Singapore" (resumed false [])
           (mkToolConfirmation false)); [lia | reflexivity].
Defined.

(** ** Properties of the event scan *)

Lemma is_confirmation_call_iff (part : Genai.Part) :
  is_confirmation_call part = true <-> confirmation_part part.
Proof.
  unfold is_confirmation_call, confirmation_part. split.
  - destruct (Genai.function_call part) as [fc |]; [| discriminate].
    destruct (Genai.name fc) as [n |] eqn:Hn; [| discriminate].
    intros Heq. apply String.eqb_eq in Heq. subst n. now exists fc.
  - intros (fc & -> & ->). reflexivity.
Qed.

Lemma is_confirmation_call_false (part : Genai.Part) :
  is_confirmation_call part = false <-> ~ confirmation_part part.
Proof.
  rewrite <- is_confirmation_call_iff.
  destruct (is_confirmation_call part); split; congruence.
Qed.

(** The guarded inner loop of an event is the scan of its parts. *)
Lemma guarded_scan (event : Genai.Event) :
  (if has_parts event then
     match Genai.content event with
     | Some c => scan_parts event (default [] (Genai.parts c))
     | None => None
     end
   else None) = scan_parts event (event_parts event).
Proof.
  unfold has_parts, event_parts.
  destruct (Genai.content event) as [c |]; [| reflexivity].
  destruct (Genai.parts c) as [[| part ps] |]; reflexivity.
Qed.

Lemma check_for_approval_cons (event : Genai.Event) (events : list Genai.Event) :
  check_for_approval (event :: events) =
    match scan_parts event (event_parts event) with
    | Some info => Some info
    | None => check_for_approval events
    end.
Proof. cbn [check_for_approval]. now rewrite guarded_scan. Qed.

Lemma scan_parts_None (event : Genai.Event) (ps : list Genai.Part) :
  scan_parts event ps = None <->
  forall part, In part ps -> ~ confirmation_part part.
Proof.
  induction ps as [| part ps IH]; cbn [scan_parts].
  - split; [intros _ part [] | reflexivity].
  - destruct (is_confirmation_call part) eqn:Hcall.
    + split; [discriminate |].
      intros Hnone. exfalso. apply (Hnone part); [now left |].
      now apply is_confirmation_call_iff.
    + rewrite IH. apply is_confirmation_call_false in Hcall. split.
      * intros Hps part' [<- | Hin]; [exact Hcall | now apply Hps].
      * intros Hall part' Hin. apply Hall. now right.
Qed.

Lemma scan_parts_Some
    (event : Genai.Event) (ps : list Genai.Part) (info : gmap string PyVal) :
  scan_parts event ps = Some info ->
  exists parts_before part parts_after fc,
    ps = (parts_before ++ part :: parts_after)%list /\
    (forall part', In part' parts_before -> ~ confirmation_part part') /\
    Genai.function_call part = Some fc /\
    Genai.name fc = Some "adk_request_confirmation" /\
    info = approval_info event fc.
Proof.
  induction ps as [| part ps IH]; cbn [scan_parts]; [discriminate |].
  destruct (is_confirmation_call part) eqn:Hcall.
  - intros [= <-].
    destruct (proj1 (is_confirmation_call_iff part) Hcall) as (fc & Hfc & Hname).
    exists [], part, ps, fc. rewrite Hfc. repeat split; try assumption.
    intros part' [].
  - intros Hrest.
    destruct (IH Hrest) as (pb & p & pa & fc & -> & Hpb & Hfc & Hname & ->).
    exists (part :: pb), p, pa, fc. repeat split; try assumption.
    intros part' [<- | Hin]; [now apply is_confirmation_call_false | now apply Hpb].
Qed.

Lemma no_confirmation_cons (event : Genai.Event) (events : list Genai.Event) :
  no_confirmation (event :: events) <->
  (forall part, In part (event_parts event) -> ~ confirmation_part part) /\
  no_confirmation events.
Proof.
  unfold no_confirmation. split.
  - intros Hall. split.
    + intros part. apply Hall. now left.
    + intros e part Hin. apply Hall. now right.
  - intros [Hhd Htl] e part [<- | Hin]; [apply Hhd | now apply Htl].
Qed.

Lemma check_for_approval_None (events : list Genai.Event) :
  check_for_approval events = None <-> no_confirmation events.
Proof.
  induction events as [| event events IH].
  - split; [intros _ e part [] | reflexivity].
  - rewrite check_for_approval_cons, no_confirmation_cons, <- IH,
      <- (scan_parts_None event).
    destruct (scan_parts event (event_parts event)); split.
    + discriminate.
    + intros [Habs _]. discriminate Habs.
    + intros Hrest. now split.
    + intros [_ Hrest]. exact Hrest.
Qed.

Lemma check_for_approval_Some
    (events : list Genai.Event) (info : gmap string PyVal) :
  check_for_approval events = Some info ->
  exists event fc,
    first_confirmation events event fc /\ info = approval_info event fc.
Proof.
  induction events as [| event events IH]; [discriminate |].
  rewrite check_for_approval_cons.
  destruct (scan_parts event (event_parts event)) as [found |] eqn:Hscan.
  - intros [= <-].
    destruct (scan_parts_Some _ _ _ Hscan)
      as (pb & p & pa & fc & Hps & Hpb & Hfc & Hname & ->).
    exists event, fc. split; [| reflexivity].
    exists [], events, pb, p, pa. repeat split; try assumption.
    intros e part [].
  - intros Hrest.
    destruct (IH Hrest)
      as (e & fc & (bf & af & pb & p & pa & -> & Hps & Hbf & Hpb & Hfc & Hname) & ->).
    exists e, fc. split; [| reflexivity].
    exists (event :: bf), af, pb, p, pa. repeat split; try assumption.
    apply no_confirmation_cons. split; [| exact Hbf].
    now apply scan_parts_None with (event := event).
Qed.

(** C10. [check_for_approval] returns None exactly when no event of the
    list has a content part whose function call is named
    "adk_request_confirmation"; otherwise, scanning the events and their
    parts in order, it returns the mapping that holds, for the first such
    part, the function call's id as approval_id and the invocation_id of
    the event the part belongs to. *)
Theorem check_for_approval_first_confirmation (events : list Genai.Event) :
  (check_for_approval events = None <-> no_confirmation events) /\
  (check_for_approval events = None \/
   exists event fc,
     first_confirmation events event fc /\
     check_for_approval events =
       Some {[ "approval_id" := of_opt_str (Genai.id fc);
               "invocation_id" := VStr (Genai.invocation_id event) ]}).
Proof.
  split; [apply check_for_approval_None |].
  destruct (check_for_approval events) as [info |] eqn:Hres; [right | now left].
  destruct (check_for_approval_Some events info Hres) as (event & fc & Hfirst & ->).
  now exists event, fc.
Qed.

(** ** Demonstration runs *)

(** The three runs of [demo_long_running_operations]. *)
Example demo_small_order :
  place_shipping_order 3 "Singapore" first_call =
    (Return {[ "status" := VStr "approved";
               "order_id" := VStr "ORD-3-AUTO";
               "num_containers" := VInt 3;
               "destination" := VStr "Singapore";
               "message" := VStr "Order auto-approved: 3 containers to Singapore" ]},
     first_call).
Proof. reflexivity. Qed.

Example demo_large_order_pauses :
  place_shipping_order 10 "Rotterdam" first_call =
    (Return {[ "status" := VStr "pending";
               "message" := VStr "Order for 10 containers requires approval" ]},
     {| tool_confirmation := None;
        requested :=
          [ {| hint := "⚠️ Large order: 10 containers to Rotterdam. Approve?";
               payload := {[ "num_containers" := VInt 10;
                             "destination" := VStr "Rotterdam" ]} |} ] |}).
Proof. reflexivity. Qed.

Example demo_large_order_approved :
  fst (place_shipping_order 10 "Rotterdam" (resumed true [])) =
    Return {[ "status" := VStr "approved";
              "order_id" := VStr "ORD-10-HUMAN";
              "num_containers" := VInt 10;
              "destination" := VStr "Rotterdam";
              "message" := VStr "Order approved: 10 containers to Rotterdam" ]}.
Proof. reflexivity. Qed.

Example demo_large_order_rejected :
  fst (place_shipping_order 8 "Los Angeles" (resumed false [])) =
    Return {[ "status" := VStr "rejected";
              "message" := VStr "Order rejected: 8 containers to Los Angeles" ]}.
Proof. reflexivity. Qed.

(** The boundary: 5 is auto-approved, 6 pauses. *)
Example boundary_five :
  fst (place_shipping_order 5 "Oslo" first_call) = Return (auto_approved 5 "Oslo").
Proof. reflexivity. Qed.

Example boundary_six :
  fst (place_shipping_order 6 "Oslo" first_call) = Return (pending_approval 6).
Proof. reflexivity. Qed.

(** A negative quantity and an empty destination are auto-approved. *)
Example negative_quantity :
  fst (place_shipping_order (-2) "" first_call) =
    Return {[ "status" := VStr "approved";
              "order_id" := VStr "ORD--2-AUTO";
              "num_containers" := VInt (-2);
              "destination" := VStr "";
              "message" := VStr "Order auto-approved: -2 containers to " ]}.
Proof. reflexivity. Qed.

(** An event list as the runner yields it on a pause: a text part, an
    unrelated function call, then the confirmation call. *)
Example scan_finds_first_confirmation :
  check_for_approval
    [ Genai.mkEvent "inv-1" None;
      Genai.mkEvent "inv-1" (Some (Genai.mkContent None));
      Genai.mkEvent "inv-1" (Some (Genai.mkContent (Some [])));
      Genai.mkEvent "inv-1"
        (Some (Genai.mkContent (Some
           [ Genai.mkPart (Some "Placing the order") None;
             Genai.mkPart None
               (Some (Genai.mkFunctionCall (Some "call-1")
                        (Some "place_shipping_order"))) ])));
      Genai.mkEvent "inv-2"
        (Some (Genai.mkContent (Some
           [ Genai.mkPart None (Some (Genai.mkFunctionCall (Some "call-2") None));
             Genai.mkPart None
               (Some (Genai.mkFunctionCall (Some "call-3")
                        (Some "adk_request_confirmation")));
             Genai.mkPart None
               (Some (Genai.mkFunctionCall (Some "call-4")
                        (Some "adk_request_confirmation"))) ])));
      Genai.mkEvent "inv-3"
        (Some (Genai.mkContent (Some
           [ Genai.mkPart None
               (Some (Genai.mkFunctionCall None
                        (Some "adk_request_confirmation"))) ]))) ] =
    Some {[ "approval_id" := VStr "call-3"; "invocation_id" := VStr "inv-2" ]}.
Proof. reflexivity. Qed.

Example scan_without_confirmation :
  check_for_approval
    [ Genai.mkEvent "inv-1"
        (Some (Genai.mkContent (Some
           [ Genai.mkPart (Some "Order completed") None ]))) ] = None.
Proof. reflexivity. Qed.

Example scan_confirmation_without_id :
  check_for_approval
    [ Genai.mkEvent "inv-3"
        (Some (Genai.mkContent (Some
           [ Genai.mkPart None
               (Some (Genai.mkFunctionCall None
                        (Some "adk_request_confirmation"))) ]))) ] =
    Some {[ "approval_id" := VNone; "invocation_id" := VStr "inv-3" ]}.
Proof. reflexivity. Qed.

(** ** Further facts about strings and identifiers *)

Lemma str_length_app (a b : string) :
  String.length (a +:+ b) = (String.length a + String.length b)%nat.
Proof.
  induction a as [| c a IH]; [reflexivity |].
  change (S (String.length (a +:+ b)) = S (String.length a + String.length b)).
  now rewrite IH.
Qed.

Lemma str_app_cancel_r (a b c : string) : a +:+ c = b +:+ c -> a = b.
Proof.
  revert b. induction a as [| x a IH]; intros [| y b] Heq.
  - reflexivity.
  - apply (f_equal String.length) in Heq.
    rewrite !str_length_app in Heq. cbn [String.length] in Heq. lia.
  - apply (f_equal String.length) in Heq.
    rewrite !str_length_app in Heq. cbn [String.length] in Heq. lia.
  - change (String x (a +:+ c) = String y (b +:+ c)) in Heq.
    injection Heq as -> Heq. f_equal. now apply IH.
Qed.

Lemma last_char_app (a s : string) :
  s <> "" -> last_char (a +:+ s) = last_char s.
Proof.
  intros Hs. induction a as [| c a IH]; [reflexivity |].
  change (last_char (String c (a +:+ s)) = last_char s).
  cbn [last_char]. destruct (a +:+ s) as [| c' t] eqn:Happ; [| exact IH].
  destruct a; [| discriminate Happ]. now destruct Hs.
Qed.

Lemma str_int_inj (a b : Z) : str_int a = str_int b -> a = b.
Proof.
  unfold str_int. intros Heq.
  assert (Hnn : forall z, Z.to_int z <> Decimal.Pos Decimal.Nil /\
                          Z.to_int z <> Decimal.Neg Decimal.Nil).
  { intros [| p | p]; cbn [Z.to_int]; split; try discriminate;
      intros [= Hp]; now apply (Unsigned.to_uint_nonnil p). }
  apply to_int_inj.
  apply (f_equal NilZero.int_of_string) in Heq.
  rewrite !NilZero.isi in Heq by apply Hnn. now injection Heq.
Qed.

Lemma auto_id_inj (a b : Z) :
  "ORD-" +:+ str_int a +:+ "-AUTO" = "ORD-" +:+ str_int b +:+ "-AUTO" -> a = b.
Proof.
  intros Heq. apply str_int_inj, (str_app_cancel_r _ _ "-AUTO").
  now apply (inj (String.append "ORD-")).
Qed.

Lemma human_id_inj (a b : Z) :
  "ORD-" +:+ str_int a +:+ "-HUMAN" = "ORD-" +:+ str_int b +:+ "-HUMAN" -> a = b.
Proof.
  intros Heq. apply str_int_inj, (str_app_cancel_r _ _ "-HUMAN").
  now apply (inj (String.append "ORD-")).
Qed.

Lemma auto_id_not_human (a b : Z) :
  "ORD-" +:+ str_int a +:+ "-AUTO" <> "ORD-" +:+ str_int b +:+ "-HUMAN".
Proof.
  intros Heq. apply (f_equal last_char) in Heq.
  rewrite <- !str_app_assoc, !last_char_app in Heq by discriminate.
  discriminate Heq.
Qed.

(** ** Further properties of the gate *)

Lemma decision_status (q : Z) (d : string) (resume : option ToolConfirmation) :
  decision q d resume !! "status" =
    Some (VStr (if (q <=? 5)%Z then "approved"
                else match resume with
                     | None => "pending"
                     | Some tc => if confirmed tc then "approved" else "rejected"
                     end)).
Proof.
  unfold decision. destruct (q <=? 5)%Z; [reflexivity |].
  destruct resume as [tc |]; [| reflexivity].
  destruct (confirmed tc); reflexivity.
Qed.

Lemma decision_order_id (q : Z) (d : string) (resume : option ToolConfirmation) :
  decision q d resume !! "order_id" =
    if (q <=? 5)%Z then Some (VStr ("ORD-" +:+ str_int q +:+ "-AUTO"))
    else match resume with
         | None => None
         | Some tc =>
             if confirmed tc
             then Some (VStr ("ORD-" +:+ str_int q +:+ "-HUMAN"))
             else None
         end.
Proof.
  unfold decision. destruct (q <=? 5)%Z; [reflexivity |].
  destruct resume as [tc |]; [| reflexivity].
  destruct (confirmed tc); reflexivity.
Qed.

Lemma gate_returns (q : Z) (d : string) (ctx ctx' : ToolContext)
    (r : gmap string PyVal) :
  place_shipping_order q d ctx = (Return r, ctx') ->
  r = decision q d (tool_confirmation ctx).
Proof.
  intros Hrun. destruct (gate_decision q d ctx) as (c & Hrun' & _).
  rewrite Hrun' in Hrun. now injection Hrun as <- _.
Qed.

(** X1. An order above the threshold is approved only on a human's
    confirmation: if a call for more than 5 containers returns status
    "approved", the context held a confirmation with confirmed = true, and
    the identifier is the -HUMAN one. *)
Theorem large_order_approved_only_by_human
    (q : Z) (d : string) (ctx ctx' : ToolContext) (r : gmap string PyVal) :
  5 < q ->
  place_shipping_order q d ctx = (Return r, ctx') ->
  r !! "status" = Some (VStr "approved") ->
  exists tc,
    tool_confirmation ctx = Some tc /\
    confirmed tc = true /\
    r !! "order_id" = Some (VStr ("ORD-" +:+ str_int q +:+ "-HUMAN")).
Proof.
  intros Hq Hrun Hstatus. apply gate_returns in Hrun. subst r.
  rewrite decision_status in Hstatus. rewrite decision_order_id.
  destruct (Z.leb_spec q 5) as [Hle | _]; [lia |].
  destruct (tool_confirmation ctx) as [tc |]; [| discriminate Hstatus].
  exists tc. destruct (confirmed tc); [now repeat split | discriminate Hstatus].
Qed.

Lemma large_order_approved_only_by_human_witness :
  5 < 10 /\
  place_shipping_order 10 "Rotterdam" (resumed true []) =
    (Return (approved 10 "Rotterdam"), resumed true []) /\
  approved 10 "Rotterdam" !! "status" = Some (VStr "approved") /\
  exists tc,
    tool_confirmation (resumed true []) = Some tc /\
    confirmed tc = true /\
    approved 10 "Rotterdam" !! "order_id" =
      Some (VStr ("ORD-" +:+ str_int 10 +:+ "-HUMAN")).
Proof.
  split; [lia |]. split; [reflexivity |]. split; [reflexivity |].
  apply (large_order_approved_only_by_human 10 "Rotterdam"
           (resumed true []) (resumed true []));
    [lia | reflexivity | reflexivity].
Defined.

(** X3. A result carries the fields num_containers and destination when
    its status is "approved", and then they are the quantity and the
    destination of the call; a pending or rejected result has neither. *)
Theorem approved_result_echoes_request
    (q : Z) (d : string) (ctx : ToolContext) :
  exists r ctx',
    place_shipping_order q d ctx = (Return r, ctx') /\
    (r !! "status" = Some (VStr "approved") ->
     r !! "num_containers" = Some (VInt q) /\
     r !! "destination" = Some (VStr d)) /\
    (r !! "status" <> Some (VStr "approved") ->
     r !! "num_containers" = None /\ r !! "destination" = None).
Proof.
  destruct (gate_decision q d ctx) as (ctx' & Hrun & _).
  exists (decision q d (tool_confirmation ctx)), ctx'.
  split; [exact Hrun |]. rewrite decision_status. unfold decision.
  destruct (q <=? 5)%Z.
  - split; [intros _; split; reflexivity | intros Hne; now destruct Hne].
  - destruct (tool_confirmation ctx) as [tc |].
    + destruct (confirmed tc).
      * split; [intros _; split; reflexivity | intros Hne; now destruct Hne].
      * split; [discriminate | intros _; split; reflexivity].
    + split; [discriminate | intros _; split; reflexivity].
Qed.

(** X4. An order identifier determines the quantity: two calls, whatever
    their destinations and contexts, that return the same order_id were
    made for the same number of containers. *)
Theorem order_id_determines_quantity
    (q1 q2 : Z) (d1 d2 : string) (ctx1 ctx2 ctx1' ctx2' : ToolContext)
    (r1 r2 : gmap string PyVal) (oid : PyVal) :
  place_shipping_order q1 d1 ctx1 = (Return r1, ctx1') ->
  place_shipping_order q2 d2 ctx2 = (Return r2, ctx2') ->
  r1 !! "order_id" = Some oid ->
  r2 !! "order_id" = Some oid ->
  q1 = q2.
Proof.
  intros Hrun1 Hrun2 Hid1 Hid2.
  apply gate_returns in Hrun1, Hrun2. subst r1 r2.
  rewrite decision_order_id in Hid1, Hid2.
  destruct (q1 <=? 5)%Z, (q2 <=? 5)%Z;
    repeat match goal with
      | H : context [match ?o with Some _ => _ | None => _ end] |- _ =>
          destruct o; [| try discriminate H]
      | H : context [if confirmed ?tc then _ else _] |- _ =>
          destruct (confirmed tc); [| discriminate H]
      end.
  - apply auto_id_inj. congruence.
  - destruct (auto_id_not_human q1 q2). congruence.
  - destruct (auto_id_not_human q2 q1). congruence.
  - apply human_id_inj. congruence.
Qed.

Lemma order_id_determines_quantity_witness :
  place_shipping_order 3 "Singapore" first_call =
    (Return (auto_approved 3 "Singapore"), first_call) /\
  place_shipping_order 3 "Oslo" (resumed false []) =
    (Return (auto_approved 3 "Oslo"), resumed false []) /\
  auto_approved 3 "Singapore" !! "order_id" = Some (VStr "ORD-3-AUTO") /\
  auto_approved 3 "Oslo" !! "order_id" = Some (VStr "ORD-3-AUTO") /\
  3 = 3.
Proof.
  split; [reflexivity |]. split; [reflexivity |].
  split; [reflexivity |]. split; [reflexivity |].
  apply (order_id_determines_quantity 3 3 "Singapore" "Oslo"
           first_call (resumed false []) first_call (resumed false [])
           (auto_approved 3 "Singapore") (auto_approved 3 "Oslo")
           (VStr "ORD-3-AUTO")); reflexivity.
Defined.

(** ** Further properties of the event scan *)

Lemma approval_info_lookup (event : Genai.Event) (fc : Genai.FunctionCall) :
  approval_info event fc !! "approval_id" = Some (of_opt_str (Genai.id fc)) /\
  approval_info event fc !! "invocation_id" =
    Some (VStr (Genai.invocation_id event)).
Proof. split; reflexivity. Qed.

Lemma approval_info_nonempty (event : Genai.Event) (fc : Genai.FunctionCall) :
  approval_info event fc <> ∅.
Proof.
  intros Hempty.
  assert (Hl : approval_info event fc !! "invocation_id" = None)
    by (rewrite Hempty; apply lookup_empty).
  rewrite (proj2 (approval_info_lookup event fc)) in Hl. discriminate Hl.
Qed.

(** X5. A dictionary returned by [check_for_approval] is never empty: it
    holds an approval_id, which is a string or None, and an invocation_id,
    which is a string. A caller's test [if approval_info:] therefore
    succeeds exactly when the result is not None. *)
Theorem approval_info_is_truthy
    (events : list Genai.Event) (info : gmap string PyVal) :
  check_for_approval events = Some info ->
  info <> ∅ /\
  (exists call_id, info !! "approval_id" = Some (of_opt_str call_id)) /\
  (exists inv, info !! "invocation_id" = Some (VStr inv)) /\
  truthy_dict (check_for_approval events) = true.
Proof.
  intros Hres. rewrite Hres.
  destruct (check_for_approval_Some events info Hres) as (event & fc & _ & ->).
  split; [apply approval_info_nonempty |].
  split; [exists (Genai.id fc); apply approval_info_lookup |].
  split; [exists (Genai.invocation_id event); apply approval_info_lookup |].
  cbn [truthy_dict]. rewrite bool_decide_eq_false_2; [reflexivity |].
  apply approval_info_nonempty.
Qed.

Lemma approval_info_is_truthy_witness :
  check_for_approval
    [ Genai.mkEvent "inv-2"
        (Some (Genai.mkContent (Some
           [ Genai.mkPart None
               (Some (Genai.mkFunctionCall (Some "call-3")
                        (Some "adk_request_confirmation"))) ]))) ] =
    Some {[ "approval_id" := VStr "call-3"; "invocation_id" := VStr "inv-2" ]} /\
  ({[ "approval_id" := VStr "call-3"; "invocation_id" := VStr "inv-2" ]}
     : gmap string PyVal) <> ∅ /\
  (exists call_id,
     ({[ "approval_id" := VStr "call-3"; "invocation_id" := VStr "inv-2" ]}
        : gmap string PyVal) !! "approval_id" = Some (of_opt_str call_id)) /\
  (exists inv,
     ({[ "approval_id" := VStr "call-3"; "invocation_id" := VStr "inv-2" ]}
        : gmap string PyVal) !! "invocation_id" = Some (VStr inv)) /\
  truthy_dict
    (check_for_approval
       [ Genai.mkEvent "inv-2"
           (Some (Genai.mkContent (Some
              [ Genai.mkPart None
                  (Some (Genai.mkFunctionCall (Some "call-3")
                           (Some "adk_request_confirmation"))) ]))) ]) = true.
Proof.
  split; [reflexivity |].
  apply (approval_info_is_truthy
           [ Genai.mkEvent "inv-2"
               (Some (Genai.mkContent (Some
                  [ Genai.mkPart None
                      (Some (Genai.mkFunctionCall (Some "call-3")
                               (Some "adk_request_confirmation"))) ]))) ]).
  reflexivity.
Defined.

(** X6. Scanning a concatenation of event lists: a confirmation request
    in the earlier events wins, and the later events are consulted only
    when the earlier ones hold none. *)
Theorem check_for_approval_app (earlier later : list Genai.Event) :
  check_for_approval (earlier ++ later) =
    match check_for_approval earlier with
    | Some info => Some info
    | None => check_for_approval later
    end.
Proof.
  induction earlier as [| event earlier IH]; [reflexivity |].
  change ((event :: earlier) ++ later)%list
    with (event :: (earlier ++ later))%list.
  rewrite !check_for_approval_cons, IH.
  now destruct (scan_parts event (event_parts event)).
Qed.

(** ** Properties of [print_agent_response] *)

Lemma print_parts_texts (ps : list Genai.Part) :
  print_parts ps = map (String.append "Agent > ") (flat_map part_text ps).
Proof.
  induction ps as [| part ps IH]; [reflexivity |].
  cbn [print_parts flat_map]. rewrite map_app, IH. f_equal.
  unfold part_text. destruct (Genai.text part) as [[| c s] |]; reflexivity.
Qed.

Lemma guarded_print (event : Genai.Event) :
  (if has_parts event then
     match Genai.content event with
     | Some c => print_parts (default [] (Genai.parts c))
     | None => []
     end
   else []) = print_parts (event_parts event).
Proof.
  unfold has_parts, event_parts.
  destruct (Genai.content event) as [c |]; [| reflexivity].
  destruct (Genai.parts c) as [[| part ps] |]; reflexivity.
Qed.

Lemma print_agent_response_texts (events : list Genai.Event) :
  print_agent_response events = map (String.append "Agent > ") (texts events).
Proof.
  induction events as [| event events IH]; [reflexivity |].
  cbn [print_agent_response]. rewrite guarded_print, print_parts_texts, IH.
  unfold texts. cbn [flat_map]. now rewrite map_app.
Qed.

(** X7. [print_agent_response] prints one line per part with a non-empty
    text, in the order of the events and of their parts, each line being
    "Agent > " followed by the text. Events without content, contents
    without parts, and parts whose text is None or empty print nothing. *)
Theorem print_agent_response_lines (events : list Genai.Event) :
  print_agent_response events = map (String.append "Agent > ") (texts events) /\
  length (print_agent_response events) = length (texts events).
Proof.
  split; [apply print_agent_response_texts |].
  rewrite print_agent_response_texts. apply length_map.
Qed.

(** X8. Printing the responses of a concatenation of event lists prints
    those of the first list, then those of the second. *)
Theorem print_agent_response_app (earlier later : list Genai.Event) :
  print_agent_response (earlier ++ later) =
    (print_agent_response earlier ++ print_agent_response later)%list.
Proof.
  induction earlier as [| event earlier IH]; [reflexivity |].
  change ((event :: earlier) ++ later)%list
    with (event :: (earlier ++ later))%list.
  cbn [print_agent_response]. rewrite IH. apply app_assoc.
Qed.

(** ** Properties of [create_approval_response] *)

Lemma create_approval_response_of_call
    (event : Genai.Event) (fc : Genai.FunctionCall) (approved : bool) :
  create_approval_response (approval_info event fc) approved =
    inr (approval_message (Genai.id fc) approved).
Proof.
  unfold create_approval_response.
  rewrite (proj1 (approval_info_lookup event fc)).
  destruct (Genai.id fc); reflexivity.
Qed.

(** X9. The answer to a detected pause: when [check_for_approval] finds
    a confirmation request, [create_approval_response] on its result does
    not raise, and builds a user message with exactly one part, a function
    response named "adk_request_confirmation" that carries the id of the
    first confirmation call of the events and the decision. *)
Theorem approval_response_answers_first_request
    (events : list Genai.Event) (info : gmap string PyVal) (approved : bool) :
  check_for_approval events = Some info ->
  exists event fc,
    first_confirmation events event fc /\
    create_approval_response info approved =
      inr {| Msg.role := Some "user";
             Msg.parts :=
               Some [ {| Msg.text := None;
                         Msg.function_response :=
                           Some {| Msg.id := Genai.id fc;
                                   Msg.name := Some "adk_request_confirmation";
                                   Msg.response :=
                                     Some {[ "confirmed" := JBool approved ]} |} |} ] |}.
Proof.
  intros Hres.
  destruct (check_for_approval_Some events info Hres) as (event & fc & Hfirst & ->).
  exists event, fc. split; [exact Hfirst |].
  apply create_approval_response_of_call.
Qed.

Lemma approval_response_answers_first_request_witness :
  check_for_approval
    [ Genai.mkEvent "inv-2"
        (Some (Genai.mkContent (Some
           [ Genai.mkPart None
               (Some (Genai.mkFunctionCall (Some "call-3")
                        (Some "adk_request_confirmation"))) ]))) ] =
    Some {[ "approval_id" := VStr "call-3"; "invocation_id" := VStr "inv-2" ]} /\
  exists event fc,
    first_confirmation
      [ Genai.mkEvent "inv-2"
          (Some (Genai.mkContent (Some
             [ Genai.mkPart None
                 (Some (Genai.mkFunctionCall (Some "call-3")
                          (Some "adk_request_confirmation"))) ]))) ]
      event fc /\
    create_approval_response
      {[ "approval_id" := VStr "call-3"; "invocation_id" := VStr "inv-2" ]}
      false =
      inr {| Msg.role := Some "user";
             Msg.parts :=
               Some [ {| Msg.text := None;
                         Msg.function_response :=
                           Some {| Msg.id := Genai.id fc;
                                   Msg.name := Some "adk_request_confirmation";
                                   Msg.response :=
                                     Some {[ "confirmed" := JBool false ]} |} |} ] |}.
Proof.
  split; [reflexivity |].
  apply (approval_response_answers_first_request
           [ Genai.mkEvent "inv-2"
               (Some (Genai.mkContent (Some
                  [ Genai.mkPart None
                      (Some (Genai.mkFunctionCall (Some "call-3")
                               (Some "adk_request_confirmation"))) ]))) ]).
  reflexivity.
Defined.

Lemma confirmed_entry_inj (b1 b2 : bool) :
  ({[ "confirmed" := JBool b1 ]} : gmap string Json) = {[ "confirmed" := JBool b2 ]} ->
  b1 = b2.
Proof.
  intros Heq. apply (f_equal (lookup "confirmed")) in Heq.
  rewrite !lookup_singleton_eq in Heq. now injection Heq.
Qed.

(** X10. The message determines the answer: if two calls of
    [create_approval_response] return the same message, they were made
    with the same decision and with the same value under "approval_id".
    A missing "approval_id" raises KeyError, so that no message is built
    without one. *)
Theorem approval_response_determines_answer
    (info1 info2 : gmap string PyVal) (approved1 approved2 : bool)
    (message : Msg.Content) :
  create_approval_response info1 approved1 = inr message ->
  create_approval_response info2 approved2 = inr message ->
  approved1 = approved2 /\
  info1 !! "approval_id" = info2 !! "approval_id" /\
  is_Some (info1 !! "approval_id").
Proof.
  unfold create_approval_response. intros H1 H2.
  destruct (info1 !! "approval_id") as [[| z1 | s1] |];
    destruct (info2 !! "approval_id") as [[| z2 | s2] |];
    try discriminate H1; try discriminate H2;
    rewrite <- H2 in H1; injection H1 as H1;
    try discriminate;
    repeat match goal with
      | H : Some _ = Some _ |- _ => injection H as H
      | H : _ = _ :> gmap string Json |- _ => apply confirmed_entry_inj in H
      end; subst; eauto.
Qed.

Lemma approval_response_determines_answer_witness :
  create_approval_response
    {[ "approval_id" := VStr "call-3"; "invocation_id" := VStr "inv-2" ]} true =
    inr (approval_message (Some "call-3") true) /\
  create_approval_response {[ "approval_id" := VStr "call-3" ]} true =
    inr (approval_message (Some "call-3") true) /\
  true = true /\
  ({[ "approval_id" := VStr "call-3"; "invocation_id" := VStr "inv-2" ]}
     : gmap string PyVal) !! "approval_id" =
    ({[ "approval_id" := VStr "call-3" ]} : gmap string PyVal) !! "approval_id" /\
  is_Some
    (({[ "approval_id" := VStr "call-3"; "invocation_id" := VStr "inv-2" ]}
        : gmap string PyVal) !! "approval_id").
Proof.
  split; [reflexivity |]. split; [reflexivity |].
  apply (approval_response_determines_answer
           {[ "approval_id" := VStr "call-3"; "invocation_id" := VStr "inv-2" ]}
           {[ "approval_id" := VStr "call-3" ]} true true
           (approval_message (Some "call-3") true)); reflexivity.
Defined.

(** ** Properties of [load_api_key] *)

(** X11. [load_api_key] returns a key exactly when, after [load_dotenv],
    the environment holds a non-empty GOOGLE_API_KEY, and then returns
    that value; when the variable is unset or empty it raises ValueError.
    Either way the environment it leaves is the one [load_dotenv]
    produced: writing the key back changes nothing. *)
Theorem load_api_key_outcome
    (load_dotenv : gmap string string -> gmap string string)
    (environ : gmap string string) :
  snd (load_api_key load_dotenv environ) = load_dotenv environ /\
  (forall key,
     fst (load_api_key load_dotenv environ) = inr key <->
     load_dotenv environ !! "GOOGLE_API_KEY" = Some key /\ key <> "") /\
  ((exists msg, fst (load_api_key load_dotenv environ) = inl (Err.ValueError msg)) <->
   load_dotenv environ !! "GOOGLE_API_KEY" = None \/
   load_dotenv environ !! "GOOGLE_API_KEY" = Some "").
Proof.
  unfold load_api_key.
  destruct (load_dotenv environ !! "GOOGLE_API_KEY") as [[| c k] |] eqn:Hkey;
    cbn [truthy_str negb fstr fst snd].
  - split; [reflexivity |]. split.
    + intros key. split; [discriminate |]. intros [[= <-] Hne]. now destruct Hne.
    + split; [now right | intros _; eexists; reflexivity].
  - split; [now apply insert_id |]. split.
    + intros key. split.
      * intros [= <-]. split; [reflexivity | discriminate].
      * intros [[= <-] _]. reflexivity.
    + split; [intros [msg Hmsg]; discriminate Hmsg | intros [H | H]; discriminate H].
  - split; [reflexivity |]. split.
    + intros key. split; [discriminate | intros [H _]; discriminate H].
    + split; [now left | intros _; eexists; reflexivity].
Qed.

(** ** Properties of the shipping workflow *)

Lemma scan_parts_first
    (event : Genai.Event) (parts_before parts_after : list Genai.Part)
    (part : Genai.Part) (fc : Genai.FunctionCall) :
  (forall part', In part' parts_before -> ~ confirmation_part part') ->
  Genai.function_call part = Some fc ->
  Genai.name fc = Some "adk_request_confirmation" ->
  scan_parts event (parts_before ++ part :: parts_after) =
    Some (approval_info event fc).
Proof.
  intros Hbefore Hfc Hname.
  induction parts_before as [| p pb IH]; cbn [Datatypes.app scan_parts].
  - assert (Hcall : is_confirmation_call part = true)
      by (apply is_confirmation_call_iff; now exists fc).
    rewrite Hcall, Hfc. reflexivity.
  - assert (Hcall : is_confirmation_call p = false)
      by (apply is_confirmation_call_false, Hbefore; now left).
    rewrite Hcall. apply IH. intros part' Hin. apply Hbefore. now right.
Qed.

(** The scan returns the dictionary of the first confirmation. *)
Lemma check_for_approval_first
    (events : list Genai.Event) (event : Genai.Event) (fc : Genai.FunctionCall) :
  first_confirmation events event fc ->
  check_for_approval events = Some (approval_info event fc).
Proof.
  intros (before & after & pb & part & pa & -> & Hparts & Hbefore & Hpb & Hfc & Hname).
  induction before as [| skipped before IH].
  - cbn [Datatypes.app]. rewrite check_for_approval_cons, Hparts.
    now rewrite (scan_parts_first event pb pa part fc).
  - apply no_confirmation_cons in Hbefore as [Hskipped Hbefore].
    change ((skipped :: before) ++ event :: after)%list
      with (skipped :: (before ++ event :: after))%list.
    rewrite check_for_approval_cons.
    rewrite (proj2 (scan_parts_None skipped (event_parts skipped)) Hskipped).
    now apply IH.
Qed.

Lemma run_calls_app (xs ys : list Action) :
  run_calls (xs ++ ys) = (run_calls xs ++ run_calls ys)%list.
Proof.
  induction xs as [| [line | app user session | call] xs IH];
    cbn [Datatypes.app run_calls]; [reflexivity | exact IH | exact IH | now rewrite IH].
Qed.

Lemma printed_app (xs ys : list Action) :
  printed (xs ++ ys) = (printed xs ++ printed ys)%list.
Proof.
  induction xs as [| [line | app user session | call] xs IH];
    cbn [Datatypes.app printed]; [reflexivity | now rewrite IH | exact IH | exact IH].
Qed.

Lemma run_calls_prints (ls : list string) : run_calls (Print <$> ls) = [].
Proof. induction ls as [| l ls IH]; [reflexivity | exact IH]. Qed.

Lemma printed_prints (ls : list string) : printed (Print <$> ls) = ls.
Proof.
  induction ls as [| l ls IH]; [reflexivity |].
  cbn [fmap list_fmap printed]. f_equal. exact IH.
Qed.

Lemma print_resumed_parts_texts (ps : list Genai.Part) :
  print_resumed_parts ps =
    map (String.append "🤖 Agent > ") (flat_map part_text ps).
Proof.
  induction ps as [| part ps IH]; [reflexivity |].
  cbn [print_resumed_parts flat_map]. rewrite map_app, IH. f_equal.
  unfold part_text. destruct (Genai.text part) as [[| c s] |]; reflexivity.
Qed.

Lemma print_resumed_texts (events : list Genai.Event) :
  print_resumed events = map (String.append "🤖 Agent > ") (texts events).
Proof.
  induction events as [| event events IH]; [reflexivity |].
  cbn [print_resumed]. rewrite IH. unfold texts. cbn [flat_map].
  rewrite map_app. f_equal. rewrite <- print_resumed_parts_texts.
  unfold has_parts, event_parts.
  destruct (Genai.content event) as [c |]; [| reflexivity].
  destruct (Genai.parts c) as [[| part ps] |]; reflexivity.
Qed.

Section WorkflowFacts.

Variables (uuid4_hex : string) (run_async : Runner.Call -> list Genai.Event).
Variables (query : string) (auto_approve : bool).

Lemma workflow_without_pause :
  check_for_approval (run_async (first_run uuid4_hex query)) = None ->
  run_shipping_workflow uuid4_hex run_async query auto_approve =
    (([ Print (nl +:+ ruler);
        Print ("💬 User > " +:+ query +:+ nl);
        CreateSession "shipping_coordinator" "test_user"
          (Runner.session_id (first_run uuid4_hex query));
        Print ("🚀 Starting workflow..." +:+ nl);
        RunAsync (first_run uuid4_hex query) ]
        ++ [Print ("✅ No approval needed - order completed immediately" +:+ nl)]
        ++ (Print <$> print_agent_response
                        (run_async (first_run uuid4_hex query)))
        ++ [Print (ruler +:+ nl)])%list,
     None).
Proof.
  intros Hnone. unfold run_shipping_workflow.
  change (Runner.mkCall "test_user" ("order_" +:+ substring 0 8 uuid4_hex)
            (Msg.mkContent (Some "user") (Some [Msg.mkPart (Some query) None]))
            VNone)
    with (first_run uuid4_hex query).
  rewrite Hnone. reflexivity.
Qed.

Lemma workflow_with_pause (event : Genai.Event) (fc : Genai.FunctionCall) :
  check_for_approval (run_async (first_run uuid4_hex query)) =
    Some (approval_info event fc) ->
  run_shipping_workflow uuid4_hex run_async query auto_approve =
    (([ Print (nl +:+ ruler);
        Print ("💬 User > " +:+ query +:+ nl);
        CreateSession "shipping_coordinator" "test_user"
          (Runner.session_id (first_run uuid4_hex query));
        Print ("🚀 Starting workflow..." +:+ nl);
        RunAsync (first_run uuid4_hex query) ]
        ++ [ Print "⏸️  Agent paused - large order requires approval";
             Print ("🤔 Simulating human decision: "
                    +:+ (if auto_approve then "APPROVE ✅" else "REJECT ❌")
                    +:+ nl);
             Print ("▶️  Resuming workflow with decision..." +:+ nl) ]
        ++ [RunAsync (resumed_run uuid4_hex (Genai.id fc)
                        (Genai.invocation_id event) auto_approve)]
        ++ (Print <$> print_resumed
                        (run_async
                           (resumed_run uuid4_hex (Genai.id fc)
                              (Genai.invocation_id event) auto_approve)))
        ++ [Print (ruler +:+ nl)])%list,
     None).
Proof.
  intros Hsome. unfold run_shipping_workflow.
  change (Runner.mkCall "test_user" ("order_" +:+ substring 0 8 uuid4_hex)
            (Msg.mkContent (Some "user") (Some [Msg.mkPart (Some query) None]))
            VNone)
    with (first_run uuid4_hex query).
  rewrite Hsome. cbn [truthy_dict].
  rewrite bool_decide_eq_false_2 by apply approval_info_nonempty.
  cbn [negb]. rewrite create_approval_response_of_call.
  rewrite (proj2 (approval_info_lookup event fc)). reflexivity.
Qed.

End WorkflowFacts.

(** X12. The workflow never ends in an exception, whatever the runner
    yields: the dictionary reads and [create_approval_response] of the
    approval branch are reached only with a result of [check_for_approval],
    which holds both keys. It calls the runner once or twice, first with
    the user's query in a fresh session, and its last action is to print
    the closing ruler. *)
Theorem workflow_completes
    (uuid4_hex : string) (run_async : Runner.Call -> list Genai.Event)
    (query : string) (auto_approve : bool) :
  snd (run_shipping_workflow uuid4_hex run_async query auto_approve) = None /\
  (exists rest,
     run_calls (fst (run_shipping_workflow uuid4_hex run_async query auto_approve))
       = first_run uuid4_hex query :: rest /\
     (length rest <= 1)%nat) /\
  last (fst (run_shipping_workflow uuid4_hex run_async query auto_approve)) =
    Some (Print (ruler +:+ nl)).
Proof.
  destruct (check_for_approval (run_async (first_run uuid4_hex query)))
    as [info |] eqn:Hres.
  - destruct (check_for_approval_Some _ _ Hres) as (event & fc & _ & ->).
    rewrite (workflow_with_pause _ _ _ _ event fc Hres). cbn [fst snd].
    split; [reflexivity |]. split.
    + eexists. rewrite !run_calls_app, run_calls_prints.
      cbn [run_calls Datatypes.app]. split; [reflexivity |]. cbn. lia.
    + rewrite !app_assoc. apply last_snoc.
  - rewrite (workflow_without_pause _ _ _ _ Hres). cbn [fst snd].
    split; [reflexivity |]. split.
    + exists []. rewrite !run_calls_app, run_calls_prints.
      cbn [run_calls Datatypes.app]. split; [reflexivity |]. cbn. lia.
    + rewrite !app_assoc. apply last_snoc.
Qed.

(** X13. When the first run yields no confirmation request, the workflow
    calls the runner once only, and prints the banner, the "no approval
    needed" line, one "Agent > " line per non-empty text of the events in
    order, and the closing ruler. *)
Theorem workflow_without_confirmation
    (uuid4_hex : string) (run_async : Runner.Call -> list Genai.Event)
    (query : string) (auto_approve : bool) :
  check_for_approval (run_async (first_run uuid4_hex query)) = None ->
  run_calls (fst (run_shipping_workflow uuid4_hex run_async query auto_approve))
    = [first_run uuid4_hex query] /\
  printed (fst (run_shipping_workflow uuid4_hex run_async query auto_approve))
    = ([ nl +:+ ruler;
         "💬 User > " +:+ query +:+ nl;
         "🚀 Starting workflow..." +:+ nl;
         "✅ No approval needed - order completed immediately" +:+ nl ]
         ++ map (String.append "Agent > ")
              (texts (run_async (first_run uuid4_hex query)))
         ++ [ruler +:+ nl])%list.
Proof.
  intros Hres. rewrite (workflow_without_pause _ _ _ _ Hres). cbn [fst].
  rewrite !run_calls_app, !printed_app, run_calls_prints, printed_prints.
  rewrite print_agent_response_texts.
  split; reflexivity.
Qed.

Lemma workflow_without_confirmation_witness :
  check_for_approval
    ((fun _ => [ Genai.mkEvent "inv-1"
                   (Some (Genai.mkContent (Some
                      [ Genai.mkPart (Some "Order approved") None ]))) ])
       (first_run "0123456789abcdef" "Ship 3 containers to Singapore")) = None /\
  run_calls
    (fst (run_shipping_workflow "0123456789abcdef"
            (fun _ => [ Genai.mkEvent "inv-1"
                          (Some (Genai.mkContent (Some
                             [ Genai.mkPart (Some "Order approved") None ]))) ])
            "Ship 3 containers to Singapore" true))
    = [first_run "0123456789abcdef" "Ship 3 containers to Singapore"] /\
  printed
    (fst (run_shipping_workflow "0123456789abcdef"
            (fun _ => [ Genai.mkEvent "inv-1"
                          (Some (Genai.mkContent (Some
                             [ Genai.mkPart (Some "Order approved") None ]))) ])
            "Ship 3 containers to Singapore" true))
    = ([ nl +:+ ruler;
         "💬 User > " +:+ "Ship 3 containers to Singapore" +:+ nl;
         "🚀 Starting workflow..." +:+ nl;
         "✅ No approval needed - order completed immediately" +:+ nl ]
         ++ map (String.append "Agent > ")
              (texts
                 ((fun _ => [ Genai.mkEvent "inv-1"
                                (Some (Genai.mkContent (Some
                                   [ Genai.mkPart (Some "Order approved") None ]))) ])
                    (first_run "0123456789abcdef"
                       "Ship 3 containers to Singapore")))
         ++ [ruler +:+ nl])%list.
Proof.
  split; [reflexivity |].
  apply (workflow_without_confirmation "0123456789abcdef"
           (fun _ => [ Genai.mkEvent "inv-1"
                         (Some (Genai.mkContent (Some
                            [ Genai.mkPart (Some "Order approved") None ]))) ])
           "Ship 3 containers to Singapore" true).
  reflexivity.
Defined.

(** X14. When the first run yields a confirmation request, the workflow
    calls the runner a second time, in the same session, with the
    invocation_id of the event that holds the first confirmation call and
    with a message that carries that call's id and the decision. It prints
    the banner, the pause lines with the decision, one "🤖 Agent > " line
    per non-empty text of the resumed run, and the closing ruler; the
    texts of the first run are not printed. *)
Theorem workflow_resumes_first_confirmation
    (uuid4_hex : string) (run_async : Runner.Call -> list Genai.Event)
    (query : string) (auto_approve : bool) (info : gmap string PyVal) :
  check_for_approval (run_async (first_run uuid4_hex query)) = Some info ->
  exists event fc,
    first_confirmation (run_async (first_run uuid4_hex query)) event fc /\
    run_calls (fst (run_shipping_workflow uuid4_hex run_async query auto_approve))
      = [ first_run uuid4_hex query;
          resumed_run uuid4_hex (Genai.id fc) (Genai.invocation_id event)
            auto_approve ] /\
    printed (fst (run_shipping_workflow uuid4_hex run_async query auto_approve))
      = ([ nl +:+ ruler;
           "💬 User > " +:+ query +:+ nl;
           "🚀 Starting workflow..." +:+ nl;
           "⏸️  Agent paused - large order requires approval";
           "🤔 Simulating human decision: "
             +:+ (if auto_approve then "APPROVE ✅" else "REJECT ❌") +:+ nl;
           "▶️  Resuming workflow with decision..." +:+ nl ]
           ++ map (String.append "🤖 Agent > ")
                (texts (run_async
                          (resumed_run uuid4_hex (Genai.id fc)
                             (Genai.invocation_id event) auto_approve)))
           ++ [ruler +:+ nl])%list.
Proof.
  intros Hres.
  destruct (check_for_approval_Some _ _ Hres) as (event & fc & Hfirst & ->).
  exists event, fc. split; [exact Hfirst |].
  rewrite (workflow_with_pause _ _ _ _ event fc Hres). cbn [fst].
  rewrite !run_calls_app, !printed_app, run_calls_prints, printed_prints.
  rewrite print_resumed_texts. split; reflexivity.
Qed.

Lemma workflow_resumes_first_confirmation_witness :
  check_for_approval
    (demo_runner (first_run "0123456789abcdef" "Ship 10 containers to Rotterdam"))
    = Some {[ "approval_id" := VStr "call-3"; "invocation_id" := VStr "inv-2" ]} /\
  exists event fc,
    first_confirmation
      (demo_runner (first_run "0123456789abcdef" "Ship 10 containers to Rotterdam"))
      event fc /\
    run_calls
      (fst (run_shipping_workflow "0123456789abcdef" demo_runner
              "Ship 10 containers to Rotterdam" false))
      = [ first_run "0123456789abcdef" "Ship 10 containers to Rotterdam";
          resumed_run "0123456789abcdef" (Genai.id fc)
            (Genai.invocation_id event) false ] /\
    printed
      (fst (run_shipping_workflow "0123456789abcdef" demo_runner
              "Ship 10 containers to Rotterdam" false))
      = ([ nl +:+ ruler;
           "💬 User > " +:+ "Ship 10 containers to Rotterdam" +:+ nl;
           "🚀 Starting workflow..." +:+ nl;
           "⏸️  Agent paused - large order requires approval";
           "🤔 Simulating human decision: "
             +:+ (if false then "APPROVE ✅" else "REJECT ❌") +:+ nl;
           "▶️  Resuming workflow with decision..." +:+ nl ]
           ++ map (String.append "🤖 Agent > ")
                (texts (demo_runner
                          (resumed_run "0123456789abcdef" (Genai.id fc)
                             (Genai.invocation_id event) false)))
           ++ [ruler +:+ nl])%list.
Proof.
  split; [reflexivity |].
  apply (workflow_resumes_first_confirmation "0123456789abcdef" demo_runner
           "Ship 10 containers to Rotterdam" false
           {[ "approval_id" := VStr "call-3"; "invocation_id" := VStr "inv-2" ]}).
  reflexivity.
Defined.

(** A full run of the demonstration runner, action by action. *)
Example demo_workflow_rejected :
  run_shipping_workflow "0123456789abcdef" demo_runner
    "Ship 10 containers to Rotterdam" false =
    ([ Print (nl +:+ ruler);
       Print ("💬 User > Ship 10 containers to Rotterdam" +:+ nl);
       CreateSession "shipping_coordinator" "test_user" "order_01234567";
       Print ("🚀 Starting workflow..." +:+ nl);
       RunAsync (first_run "0123456789abcdef" "Ship 10 containers to Rotterdam");
       Print "⏸️  Agent paused - large order requires approval";
       Print ("🤔 Simulating human decision: REJECT ❌" +:+ nl);
       Print ("▶️  Resuming workflow with decision..." +:+ nl);
       RunAsync (resumed_run "0123456789abcdef" (Some "call-3") "inv-2" false);
       Print "🤖 Agent > Order rejected";
       Print (ruler +:+ nl) ],
     None).
Proof. reflexivity. Qed.

(** ** Properties of [extract_image_from_events] *)

Lemma onto_nil (r : Err.t + list Json) : onto [] r = r.
Proof. now destruct r. Qed.

Lemma onto_onto (acc acc' : list Json) (r : Err.t + list Json) :
  onto acc (onto acc' r) = onto (acc ++ acc') r.
Proof. destruct r; cbn [onto]; [reflexivity | now rewrite app_assoc]. Qed.

Lemma collect_items_onto (items acc : list Json) :
  collect_items items acc = onto acc (collect_items items []).
Proof.
  revert acc. induction items as [| item items IH]; intros acc; cbn [collect_items].
  - cbn [onto]. now rewrite app_nil_r.
  - destruct (image_of_item item) as [e | [data |]]; [reflexivity | | apply IH].
    rewrite (IH (acc ++ [data])%list), (IH ([] ++ [data])%list), onto_onto.
    reflexivity.
Qed.

Lemma collect_content_onto (content : Json) (acc : list Json) :
  collect_content content acc = onto acc (collect_content content []).
Proof.
  destruct content as [| b | z | s | items | d]; cbn [collect_content onto];
    try reflexivity.
  - destruct (decide (s = "")); cbn [onto]; [now rewrite app_nil_r | reflexivity].
  - apply collect_items_onto.
  - destruct (decide (d = ∅)); cbn [onto]; [now rewrite app_nil_r | reflexivity].
Qed.

Lemma collect_part_onto (part : Msg.Part) (acc : list Json) :
  collect_part part acc = onto acc (collect_part part []).
Proof.
  unfold collect_part.
  destruct (Msg.function_response part) as [fr |];
    [| cbn [onto]; now rewrite app_nil_r].
  destruct (Msg.response fr) as [resp |]; [| reflexivity].
  apply collect_content_onto.
Qed.

Lemma collect_parts_onto (ps : list Msg.Part) (acc : list Json) :
  collect_parts ps acc = onto acc (collect_parts ps []).
Proof.
  revert acc. induction ps as [| part ps IH]; intros acc; cbn [collect_parts].
  - cbn [onto]. now rewrite app_nil_r.
  - rewrite (collect_part_onto part acc).
    destruct (collect_part part []) as [e | xs]; cbn [onto]; [reflexivity |].
    rewrite (IH (acc ++ xs)%list), (IH xs), onto_onto. reflexivity.
Qed.

(** One round of the outer loop is the loop over the event's parts. *)
Lemma collect_events_cons
    (event : Msg.Event) (events : list Msg.Event) (acc : list Json) :
  collect_events (event :: events) acc =
    match collect_parts (msg_parts event) acc with
    | inl e => inl e
    | inr acc' => collect_events events acc'
    end.
Proof.
  cbn [collect_events]. unfold msg_parts.
  destruct (Msg.content event) as [c |]; [| reflexivity].
  destruct (Msg.parts c) as [[| part ps] |]; reflexivity.
Qed.

Lemma collect_events_onto (events : list Msg.Event) (acc : list Json) :
  collect_events events acc = onto acc (collect_events events []).
Proof.
  revert acc. induction events as [| event events IH]; intros acc.
  - cbn [collect_events onto]. now rewrite app_nil_r.
  - rewrite !collect_events_cons, (collect_parts_onto _ acc).
    destruct (collect_parts (msg_parts event) []) as [e | xs]; cbn [onto];
      [reflexivity |].
    rewrite (IH (acc ++ xs)%list), (IH xs), onto_onto. reflexivity.
Qed.

Lemma collect_events_app (earlier later : list Msg.Event) (acc : list Json) :
  collect_events (earlier ++ later) acc =
    match collect_events earlier acc with
    | inl e => inl e
    | inr acc' => collect_events later acc'
    end.
Proof.
  revert acc. induction earlier as [| event earlier IH]; intros acc;
    [reflexivity |].
  change ((event :: earlier) ++ later)%list
    with (event :: (earlier ++ later))%list.
  rewrite !collect_events_cons.
  destruct (collect_parts (msg_parts event) acc) as [e | acc']; [reflexivity |].
  apply IH.
Qed.

(** X15. Extraction over a concatenation of event lists: an exception
    raised on the earlier events is the outcome; otherwise an exception
    raised on the later events is the outcome, and otherwise the images
    are those of the earlier events followed by those of the later
    ones. *)
Theorem extract_image_from_events_app (earlier later : list Msg.Event) :
  extract_image_from_events (earlier ++ later) =
    match extract_image_from_events earlier with
    | inl e => inl e
    | inr images =>
        match extract_image_from_events later with
        | inl e => inl e
        | inr images' => inr (images ++ images')%list
        end
    end.
Proof.
  unfold extract_image_from_events. rewrite collect_events_app.
  destruct (collect_events earlier []) as [e | images]; [reflexivity |].
  now rewrite (collect_events_onto later images).
Qed.

Lemma collect_items_app (xs ys acc : list Json) :
  collect_items (xs ++ ys) acc =
    match collect_items xs acc with
    | inl e => inl e
    | inr acc' => collect_items ys acc'
    end.
Proof.
  revert acc. induction xs as [| item xs IH]; intros acc; [reflexivity |].
  change ((item :: xs) ++ ys)%list with (item :: (xs ++ ys))%list.
  cbn [collect_items].
  destruct (image_of_item item) as [e | [data |]]; [reflexivity | apply IH ..].
Qed.

Lemma collect_part_shaped (part : Msg.Part) (acc : list Json) :
  shaped_part part = true ->
  collect_part part acc = collect_items (part_items part) acc.
Proof.
  unfold shaped_part, collect_part, part_items.
  destruct (Msg.function_response part) as [fr |]; [| reflexivity].
  destruct (Msg.response fr) as [resp |]; [| discriminate].
  destruct (resp !! "content") as [[| b | z | s | items | d] |];
    try discriminate; reflexivity.
Qed.

Lemma collect_parts_shaped (ps : list Msg.Part) (acc : list Json) :
  forallb shaped_part ps = true ->
  collect_parts ps acc = collect_items (flat_map part_items ps) acc.
Proof.
  revert acc. induction ps as [| part ps IH]; intros acc Hps; [reflexivity |].
  cbn [forallb] in Hps. apply andb_true_iff in Hps as [Hpart Hps].
  cbn [collect_parts flat_map].
  rewrite collect_items_app, (collect_part_shaped part acc Hpart).
  destruct (collect_items (part_items part) acc) as [e | acc']; [reflexivity |].
  now apply IH.
Qed.

(** On shaped events the three nested loops are one loop over all the
    response items. *)
Lemma collect_events_shaped (events : list Msg.Event) (acc : list Json) :
  shaped events = true ->
  collect_events events acc = collect_items (response_items events) acc.
Proof.
  unfold shaped, response_items.
  revert acc. induction events as [| event events IH]; intros acc Hev;
    [reflexivity |].
  cbn [forallb] in Hev. apply andb_true_iff in Hev as [Hparts Hev].
  rewrite collect_events_cons. cbn [flat_map].
  rewrite collect_items_app, (collect_parts_shaped _ acc Hparts).
  destruct (collect_items (flat_map part_items (msg_parts event)) acc)
    as [e | acc']; [reflexivity |].
  now apply IH.
Qed.

Lemma image_of_usable_item (item : Json) :
  usable_item item = true -> image_of_item item = inr (item_image item).
Proof.
  unfold usable_item, image_of_item, item_image.
  destruct item as [| b | z | s | items | d]; try discriminate.
  destruct (d !! "type") as [[| b | z | ty | items | d'] |]; try reflexivity.
  destruct (String.eqb ty "image"); [| reflexivity].
  destruct (d !! "data"); [reflexivity | discriminate].
Qed.

Lemma image_of_broken_item (item : Json) :
  broken_image item = true -> image_of_item item = inl (Err.KeyError "data").
Proof.
  unfold broken_image, image_of_item.
  destruct item as [| b | z | s | items | d]; try discriminate.
  destruct (d !! "type") as [[| b | z | ty | items | d'] |]; try discriminate.
  destruct (d !! "data"); [discriminate |]. now intros ->.
Qed.

Lemma collect_usable_items (items acc : list Json) :
  forallb usable_item items = true ->
  collect_items items acc = inr (acc ++ omap item_image items)%list.
Proof.
  revert acc. induction items as [| item items IH]; intros acc Hall.
  - cbn. now rewrite app_nil_r.
  - cbn [forallb] in Hall. apply andb_true_iff in Hall as [Hitem Hall].
    cbn [collect_items omap list_omap].
    rewrite (image_of_usable_item item Hitem).
    destruct (item_image item) as [data |]; rewrite IH by assumption;
      [now rewrite <- app_assoc | reflexivity].
Qed.

(** X16. When every function response of the events has a response
    dictionary whose content is absent or a list, and every item of these
    lists is a dictionary that has a data entry if its type is "image",
    the extraction returns the data of the image items, in the order of
    the events, parts and items; items of another type are skipped. *)
Theorem extract_images_in_order (events : list Msg.Event) :
  shaped events = true ->
  forallb usable_item (response_items events) = true ->
  extract_image_from_events events =
    inr (omap item_image (response_items events)).
Proof.
  intros Hshaped Husable. unfold extract_image_from_events.
  rewrite (collect_events_shaped events [] Hshaped).
  now rewrite (collect_usable_items _ [] Husable).
Qed.

Lemma extract_images_in_order_witness :
  shaped
    [ demo_response [ JDict {[ "type" := JStr "text"; "text" := JStr "two images" ]};
                      demo_image "aGVsbG8=" ];
      Msg.mkEvent None;
      demo_response [ demo_image "d29ybGQ=" ] ] = true /\
  forallb usable_item
    (response_items
       [ demo_response [ JDict {[ "type" := JStr "text"; "text" := JStr "two images" ]};
                         demo_image "aGVsbG8=" ];
         Msg.mkEvent None;
         demo_response [ demo_image "d29ybGQ=" ] ]) = true /\
  extract_image_from_events
    [ demo_response [ JDict {[ "type" := JStr "text"; "text" := JStr "two images" ]};
                      demo_image "aGVsbG8=" ];
      Msg.mkEvent None;
      demo_response [ demo_image "d29ybGQ=" ] ] =
    inr (omap item_image
           (response_items
              [ demo_response [ JDict {[ "type" := JStr "text";
                                         "text" := JStr "two images" ]};
                                demo_image "aGVsbG8=" ];
                Msg.mkEvent None;
                demo_response [ demo_image "d29ybGQ=" ] ])).
Proof.
  split; [reflexivity |]. split; [reflexivity |].
  apply (extract_images_in_order
           [ demo_response [ JDict {[ "type" := JStr "text";
                                      "text" := JStr "two images" ]};
                             demo_image "aGVsbG8=" ];
             Msg.mkEvent None;
             demo_response [ demo_image "d29ybGQ=" ] ]);
    reflexivity.
Defined.

(** X17. An image item without a data entry makes the extraction raise
    KeyError("data"): on events whose function responses have a response
    dictionary with absent or list content, if the items before the
    first such item are acceptable, no list is returned, whatever images
    were collected before it and whatever follows. *)
Theorem extract_image_without_data_raises
    (events : list Msg.Event) (before after : list Json) (item : Json) :
  shaped events = true ->
  response_items events = (before ++ item :: after)%list ->
  forallb usable_item before = true ->
  broken_image item = true ->
  extract_image_from_events events = inl (Err.KeyError "data").
Proof.
  intros Hshaped Hitems Hbefore Hbroken. unfold extract_image_from_events.
  rewrite (collect_events_shaped events [] Hshaped), Hitems, collect_items_app.
  rewrite (collect_usable_items before [] Hbefore). cbn [collect_items].
  now rewrite (image_of_broken_item item Hbroken).
Qed.

Lemma extract_image_without_data_raises_witness :
  shaped
    [ demo_response [ demo_image "aGVsbG8=" ];
      demo_response [ JDict {[ "type" := JStr "image" ]};
                      demo_image "d29ybGQ=" ] ] = true /\
  response_items
    [ demo_response [ demo_image "aGVsbG8=" ];
      demo_response [ JDict {[ "type" := JStr "image" ]};
                      demo_image "d29ybGQ=" ] ] =
    ([ demo_image "aGVsbG8=" ]
       ++ JDict {[ "type" := JStr "image" ]} :: [ demo_image "d29ybGQ=" ])%list /\
  forallb usable_item [ demo_image "aGVsbG8=" ] = true /\
  broken_image (JDict {[ "type" := JStr "image" ]}) = true /\
  extract_image_from_events
    [ demo_response [ demo_image "aGVsbG8=" ];
      demo_response [ JDict {[ "type" := JStr "image" ]};
                      demo_image "d29ybGQ=" ] ] = inl (Err.KeyError "data").
Proof.
  split; [reflexivity |]. split; [reflexivity |].
  split; [reflexivity |]. split; [reflexivity |].
  apply (extract_image_without_data_raises
           [ demo_response [ demo_image "aGVsbG8=" ];
             demo_response [ JDict {[ "type" := JStr "image" ]};
                             demo_image "d29ybGQ=" ] ]
           [ demo_image "aGVsbG8=" ] [ demo_image "d29ybGQ=" ]
           (JDict {[ "type" := JStr "image" ]})); reflexivity.
Defined.

(** Runs of the extraction on the demonstration events. *)
Example demo_extract_images :
  extract_image_from_events
    [ demo_response [ JDict {[ "type" := JStr "text"; "text" := JStr "two images" ]};
                      demo_image "aGVsbG8=" ];
      Msg.mkEvent None;
      demo_response [ demo_image "d29ybGQ=" ] ] =
    inr [ JStr "aGVsbG8="; JStr "d29ybGQ=" ].
Proof. reflexivity. Qed.

Example demo_extract_response_none :
  extract_image_from_events
    [ Msg.mkEvent
        (Some (Msg.mkContent None
           (Some [ Msg.mkPart None
                     (Some (Msg.mkFunctionResponse None None None)) ]))) ] =
    inl (Err.AttributeError "NoneType" "get").
Proof. reflexivity. Qed.

Example demo_extract_content_none :
  extract_image_from_events
    [ Msg.mkEvent
        (Some (Msg.mkContent None
           (Some [ Msg.mkPart None
                     (Some (Msg.mkFunctionResponse None None
                              (Some {[ "content" := JNone ]}))) ]))) ] =
    inl (Err.TypeError "'NoneType' object is not iterable").
Proof. reflexivity. Qed.

(** ** The pause and resume protocol *)

(** X18. A large order over its two calls. The first call, without
    resume state, returns "pending"; when the same order is presented
    again on the context the first call left, now with the human's answer
    as resume state, the result is "approved" or "rejected" according to
    the answer, and no further confirmation request is made: over both
    calls the record of requests grew by the one request of this order. *)
Theorem pause_then_resume
    (q : Z) (d : string) (ctx : ToolContext) (answer : bool) :
  5 < q ->
  tool_confirmation ctx = None ->
  exists r1 ctx1 r2 ctx2,
    place_shipping_order q d ctx = (Return r1, ctx1) /\
    r1 !! "status" = Some (VStr "pending") /\
    place_shipping_order q d
      {| tool_confirmation := Some (mkToolConfirmation answer);
         requested := requested ctx1 |} = (Return r2, ctx2) /\
    r2 !! "status" = Some (VStr (if answer then "approved" else "rejected")) /\
    requested ctx2 = (requested ctx ++ [confirmation_request q d])%list.
Proof.
  intros Hq Hnone.
  eexists (pending_approval q), _,
    (if answer then approved q d else rejected q d), _.
  rewrite gate_pause by assumption.
  split; [reflexivity |]. split; [reflexivity |].
  split; [apply (gate_resume q d _ (mkToolConfirmation answer) Hq); reflexivity |].
  split; [now destruct answer | reflexivity].
Qed.

Lemma pause_then_resume_witness :
  5 < 8 /\
  tool_confirmation first_call = None /\
  exists r1 ctx1 r2 ctx2,
    place_shipping_order 8 "Los Angeles" first_call = (Return r1, ctx1) /\
    r1 !! "status" = Some (VStr "pending") /\
    place_shipping_order 8 "Los Angeles"
      {| tool_confirmation := Some (mkToolConfirmation false);
         requested := requested ctx1 |} = (Return r2, ctx2) /\
    r2 !! "status" = Some (VStr (if false then "approved" else "rejected")) /\
    requested ctx2 =
      (requested first_call ++ [confirmation_request 8 "Los Angeles"])%list.
Proof.
  split; [lia |]. split; [reflexivity |].
  apply (pause_then_resume 8 "Los Angeles" first_call false);
    [lia | reflexivity].
Defined.
